(** * wttr-weather-mcp: the protocol dispatcher and the weather gateway

    A shallow embedding of [main.go] (the JSON-RPC dispatcher of the MCP
    server) and of the wttr.in client (the [WeatherClient] with its [fetch]),
    together with the part of Go's [encoding/json] decoding that the
    dispatcher relies on.

    Conventions.
    - A Go [string] is a sequence of bytes: Rocq's [string].
    - A Go [int] is modelled as [Z]; the decoder keeps it inside the 64-bit
      range, as [strconv.ParseInt(_, 10, 64)] does.
    - A Go [error] is represented by the text its [Error()] method returns;
      [nil] is [None].
    - A value of type [interface{}] is a [value]; a [map[string]T] is a
      [gmap string value].
    - A document that passed the syntax check of [encoding/json] is a [json]
      tree; a [json.RawMessage] is such a tree, or nothing when the field
      was never filled in. *)

From Stdlib Require Import ZArith String Ascii List Decimal DecimalString Lia.
From stdpp Require Import base gmap strings list.

#[local] Set Warnings "-register-all".
#[local] Open Scope string_scope.
#[local] Open Scope Z_scope.

(** ** Results of fallible library calls *)

Inductive Outcome (A E : Type) : Type :=
| Ok (a : A)
| Err (e : E).
Arguments Ok {A E} a.
Arguments Err {A E} e.

(** The text of a Go [error]. *)
Definition error := string.

(** The double quote, for string constants that contain one. *)
Definition dquote : string := String (ascii_of_nat 34) EmptyString.

(** [%d] of [fmt.Sprintf]. *)
Definition itoa (n : Z) : string := NilZero.string_of_int (Z.to_int n).

(** ** JSON documents and Go values *)

Module JSON.

(** A number is kept as its literal: sign and integer digits, fraction
    digits ([Nil] when there is no fraction) and, with [DecimalExp], an
    exponent. *)
Definition number := Decimal.decimal.

Inductive json : Type :=
| JNull
| JBool (b : bool)
| JNumber (n : number)
| JString (s : string)
| JArray (l : list json)
| JObject (ms : list (string * json)).

(** [json.RawMessage]: the undecoded bytes of a value; [None] is the empty
    message of a field that was not present. *)
Definition RawMessage := option json.

(** Dynamic Go values, as stored in an [interface{}]. *)
Inductive value : Type :=
| VNil
| VBool (b : bool)
| VInt (z : Z)
| VFloat64 (n : number)
| VString (s : string)
| VSlice (l : list value)
| VMap (m : gmap string value).

Inductive UnmarshalError : Type :=
| SyntaxError (msg : string)
| UnmarshalTypeError (v : json) (field : string).

(** *** Integers: [strconv.ParseInt(item, 10, 64)] on a JSON number literal *)

Definition minInt64 : Z := - 2 ^ 63.
Definition maxInt64 : Z := 2 ^ 63 - 1.

Definition ParseInt (n : number) : option Z :=
  match n with
  | Decimal i Nil =>
      let z := Z.of_int i in
      if (minInt64 <=? z) && (z <=? maxInt64) then Some z else None
  | _ => None
  end.

(** *** Floats: [strconv.ParseFloat(item, 64)] reports a range error when the
    literal rounds to an infinity, that is when its magnitude reaches
    [2^1024 - 2^970]. The float itself is not computed: [VFloat64] keeps the
    literal. *)

Definition mantissa (n : number) : Z :=
  match n with
  | Decimal i f | DecimalExp i f _ => Z.abs (Z.of_int (app_int i f))
  end.

Definition exponent (n : number) : Z :=
  match n with
  | Decimal _ f => - Z.of_nat (nb_digits f)
  | DecimalExp _ f e => Z.of_int e - Z.of_nat (nb_digits f)
  end.

Definition float64_overflows (n : number) : bool :=
  let bound := 2 ^ 1024 - 2 ^ 970 in
  let e := exponent n in
  if 0 <=? e then bound <=? mantissa n * 10 ^ e
  else bound * 10 ^ (- e) <=? mantissa n.

(** *** Decoding into [interface{}] *)

Fixpoint to_interface (j : json) : value :=
  match j with
  | JNull => VNil
  | JBool b => VBool b
  | JNumber n => VFloat64 n
  | JString s => VString s
  | JArray l => VSlice (List.map to_interface l)
  | JObject ms =>
      VMap (fold_left (fun m kv => <[fst kv := to_interface (snd kv)]> m) ms ∅)
  end.

(** The first number of the document that does not fit a float64, if any. *)
Fixpoint float_error (j : json) : option json :=
  match j with
  | JNumber n => if float64_overflows n then Some j else None
  | JArray l =>
      fold_right (fun x r => match float_error x with Some e => Some e | None => r end)
                 None l
  | JObject ms =>
      fold_right (fun kv r => match float_error (snd kv) with Some e => Some e | None => r end)
                 None ms
  | _ => None
  end.

(** *** Matching an object key against a struct field

    The decoder prefers the exact name and falls back to a case-insensitive
    match. All field names of this program are ASCII and pairwise different
    under folding, so a key selects the field whose folded name equals the
    folded key. Folding upper-cases ASCII letters; the only other runes that
    fold to an ASCII letter are U+017F (bytes C5 BF, to S) and U+212A
    (bytes E2 84 AA, to K). Other bytes are left as they are: they never
    match an ASCII name. *)

Definition upper (c : ascii) : ascii :=
  let n := nat_of_ascii c in
  if ((97 <=? n) && (n <=? 122))%nat then ascii_of_nat (n - 32) else c.

Fixpoint foldName (s : string) : string :=
  match s with
  | EmptyString => EmptyString
  | String c rest =>
      match nat_of_ascii c, rest with
      | 197%nat, String c2 rest2 =>
          if (nat_of_ascii c2 =? 191)%nat then String "S" (foldName rest2)
          else String c (foldName rest)
      | 226%nat, String c2 (String c3 rest3) =>
          if ((nat_of_ascii c2 =? 132) && (nat_of_ascii c3 =? 170))%nat
          then String "K" (foldName rest3)
          else String c (foldName rest)
      | _, _ => String (upper c) (foldName rest)
      end
  end.

Definition field_is (name key : string) : bool :=
  String.eqb (foldName key) (foldName name).

(** *** Storing one member value into a field

    A [null] leaves a string or an int untouched; a value of the wrong kind
    records an [UnmarshalTypeError] and decoding goes on; the decoder reports
    the first error recorded. *)

Definition saveError (saved : option UnmarshalError) (e : UnmarshalError)
  : option UnmarshalError :=
  match saved with
  | None => Some e
  | Some _ => saved
  end.

Definition store_string (field : string) (v : json) (cur : string)
    (saved : option UnmarshalError) : string * option UnmarshalError :=
  match v with
  | JString s => (s, saved)
  | JNull => (cur, saved)
  | _ => (cur, saveError saved (UnmarshalTypeError v field))
  end.

Definition store_int (field : string) (v : json) (cur : Z)
    (saved : option UnmarshalError) : Z * option UnmarshalError :=
  match v with
  | JNumber n =>
      match ParseInt n with
      | Some z => (z, saved)
      | None => (cur, saveError saved (UnmarshalTypeError v field))
      end
  | JNull => (cur, saved)
  | _ => (cur, saveError saved (UnmarshalTypeError v field))
  end.

Definition store_interface (field : string) (v : json) (cur : value)
    (saved : option UnmarshalError) : value * option UnmarshalError :=
  match float_error v with
  | Some bad => (cur, saveError saved (UnmarshalTypeError bad field))
  | None => (to_interface v, saved)
  end.

(** A [json.RawMessage] field takes any value, [null] included. *)
Definition store_raw (v : json) : RawMessage := Some v.

(** *** [json.Unmarshal(data, &t)] for a struct [t]

    [step] stores one member. An empty message is a syntax error, [null]
    leaves the struct as it was, an object is decoded member by member in
    document order, anything else is a type error. *)

Definition Unmarshal {T : Type}
    (step : T * option UnmarshalError -> string * json -> T * option UnmarshalError)
    (data : RawMessage) (t : T) : Outcome T UnmarshalError :=
  match data with
  | None => Err (SyntaxError "unexpected end of JSON input")
  | Some JNull => Ok t
  | Some (JObject ms) =>
      match fold_left step ms (t, None) with
      | (t', None) => Ok t'
      | (_, Some e) => Err e
      end
  | Some v => Err (UnmarshalTypeError v "")
  end.

End JSON.
Export JSON.

(** ** The weather gateway: [WeatherClient] *)

Module HTTP.

Record Request : Type := {
  Method : string;
  URL : string;
  Header : gmap string (list string)
}.

(** The body of a response is what [io.ReadAll] makes of it: the bytes
    read and the error that ended the read, if any. *)
Record Response : Type := {
  StatusCode : Z;
  Body : string * option error
}.

Definition StatusOK : Z := 200.

(** [req.Header.Set(key, val)], for a key in canonical form. *)
Definition Header_Set (req : Request) (key val : string) : Request :=
  {| Method := Method req; URL := URL req;
     Header := <[key := [val]]> (Header req) |}.

Definition ReadAll (body : string * option error) : string * option error := body.

(** [url.PathEscape]: every byte is percent-encoded in upper-case hex,
    except letters, digits, [-_.~] and [$&+:=@]. *)
Definition shouldEscape (c : ascii) : bool :=
  let n := nat_of_ascii c in
  if (((97 <=? n) && (n <=? 122)) || ((65 <=? n) && (n <=? 90))
      || ((48 <=? n) && (n <=? 57)))%nat then false
  else if existsb (Ascii.eqb c) (list_ascii_of_string "-_.~$&+:=@") then false
  else true.

Definition upperhex (n : nat) : ascii :=
  nth n (list_ascii_of_string "0123456789ABCDEF") "0"%char.

Fixpoint PathEscape (s : string) : string :=
  match s with
  | EmptyString => EmptyString
  | String c rest =>
      if shouldEscape c then
        let n := nat_of_ascii c in
        String "%" (String (upperhex (n / 16)) (String (upperhex (n mod 16))
          (PathEscape rest)))
      else String c (PathEscape rest)
  end.

End HTTP.

Module Weather.
Import HTTP.

(** [httpClient] stands for the [Do] method of the HTTP client: what the
    transport makes of a request, a response or a transport error. *)
Record WeatherClient : Type := {
  httpClient : Request -> Outcome Response error;
  baseURL : string
}.

Section Client.

(** [http.NewRequest] fails exactly when [url.Parse] rejects the URL (the
    method is the constant GET); [url_Parse] gives that error. *)
Variable url_Parse : string -> option error.

Definition NewRequest (method rawURL : string) : Outcome Request error :=
  match url_Parse rawURL with
  | Some err => Err err
  | None => Ok {| Method := method; URL := rawURL; Header := ∅ |}
  end.

Definition fetch (c : WeatherClient) (rawURL : string) : string * option error :=
  match NewRequest "GET" rawURL with
  | Err err => ("", Some ("creating request: " +:+ err))
  | Ok req =>
      let req := Header_Set req "User-Agent" "wttr-weather-mcp/1.0" in
      match httpClient c req with
      | Err err => ("", Some ("fetching weather: " +:+ err))
      | Ok resp =>
          match ReadAll (Body resp) with
          | (_, Some err) => ("", Some ("reading response: " +:+ err))
          | (body, None) =>
              if negb (StatusCode resp =? StatusOK) then
                ("", Some ("wttr.in returned status " +:+ itoa (StatusCode resp)
                           +:+ ": " +:+ body))
              else (body, None)
          end
      end
  end.

(** GetCurrent returns a one-line summary of current weather. *)
Definition GetCurrent (c : WeatherClient) (location : string) : string * option error :=
  let u := baseURL c +:+ "/" +:+ PathEscape location
           +:+ "?format=%l:+%c+%t+(%f)+%h+%w" in
  fetch c u.

(** GetForecast returns a text forecast for the given number of days. *)
Definition GetForecast (c : WeatherClient) (location : string) (days : Z)
  : string * option error :=
  let u := baseURL c +:+ "/" +:+ PathEscape location
           +:+ "?" +:+ itoa days +:+ "&lang=ru" in
  fetch c u.

(** GetDetailed returns structured JSON weather data. *)
Definition GetDetailed (c : WeatherClient) (location : string) : string * option error :=
  let u := baseURL c +:+ "/" +:+ PathEscape location +:+ "?format=j1" in
  fetch c u.

End Client.

Definition NewWeatherClient (transport : Request -> Outcome Response error)
  : WeatherClient :=
  {| httpClient := transport; baseURL := "https://wttr.in" |}.

End Weather.

(** ** The [WeatherService] interface *)

(** An implementation has a state [W] (the receiver) that a call may change;
    a call returns the pair [(result, err)] of the Go method. *)
Class WeatherService (W : Type) : Type := {
  GetCurrent : string -> W -> (string * option error) * W;
  GetForecast : string -> Z -> W -> (string * option error) * W;
  GetDetailed : string -> W -> (string * option error) * W
}.

(** The production client is stateless. *)
#[export] Instance WeatherClient_service (url_Parse : string -> option error)
  : WeatherService Weather.WeatherClient := {
  GetCurrent location c := (Weather.GetCurrent url_Parse c location, c);
  GetForecast location days c := (Weather.GetForecast url_Parse c location days, c);
  GetDetailed location c := (Weather.GetDetailed url_Parse c location, c)
}.

(** mockWeather implements WeatherService for testing. *)
Record mockWeather : Type := {
  currentResult : string;
  forecastResult : string;
  detailedResult : string;
  err : option error;
  lastLocation : string;
  lastDays : Z
}.

Definition mock_seen (m : mockWeather) (location : string) (days : Z) : mockWeather :=
  {| currentResult := currentResult m; forecastResult := forecastResult m;
     detailedResult := detailedResult m; err := err m;
     lastLocation := location; lastDays := days |}.

#[export] Instance mockWeather_service : WeatherService mockWeather := {
  GetCurrent location m := ((currentResult m, err m), mock_seen m location (lastDays m));
  GetForecast location days m := ((forecastResult m, err m), mock_seen m location days);
  GetDetailed location m := ((detailedResult m, err m), mock_seen m location (lastDays m))
}.

(** ** Programs that call the service

    A handler is a program over the interface: it either returns, or
    invokes one operation of the service and continues with what the
    operation returned. [exec] runs a program against an implementation
    and also reports the calls made, in order. *)

Inductive Call : Type :=
| CallGetCurrent (location : string)
| CallGetForecast (location : string) (days : Z)
| CallGetDetailed (location : string).

Inductive Prog (A : Type) : Type :=
| Ret (a : A)
| Invoke (c : Call) (k : string * option error -> Prog A).
Arguments Ret {A} a.
Arguments Invoke {A} c k.

Fixpoint bind {A B : Type} (p : Prog A) (f : A -> Prog B) : Prog B :=
  match p with
  | Ret a => f a
  | Invoke c k => Invoke c (fun r => bind (k r) f)
  end.

Definition call (c : Call) : Prog (string * option error) := Invoke c Ret.

Declare Scope prog_scope.
Delimit Scope prog_scope with prog.
#[local] Open Scope prog_scope.
Notation "x <- p ;; q" := (bind p (fun x => q))
  (at level 100, p at next level, right associativity) : prog_scope.

Definition perform {W : Type} `{WeatherService W} (c : Call) (w : W)
  : (string * option error) * W :=
  match c with
  | CallGetCurrent location => GetCurrent location w
  | CallGetForecast location days => GetForecast location days w
  | CallGetDetailed location => GetDetailed location w
  end.

Fixpoint exec {W : Type} `{WeatherService W} {A : Type} (p : Prog A) (w : W)
  : A * W * list Call :=
  match p with
  | Ret a => (a, w, [])
  | Invoke c k =>
      let '(r, w1) := perform c w in
      let '(a, w2, calls) := exec (k r) w1 in
      (a, w2, c :: calls)
  end.

(** ** The dispatcher: [main.go] *)

Definition serverName : string := "wttr-weather".
Definition serverVersion : string := "1.0.0".

Definition toolGetCurrent : string := "get_current_weather".
Definition toolGetForecast : string := "get_forecast".
Definition toolGetDetailed : string := "get_weather_detailed".

Record JSONRPCRequest : Type := {
  JSONRPC : string;
  ID : value;
  Method : string;
  Params : RawMessage
}.

(** The [Data] of an error is [nil] or the text of a decoding error; the
    text itself is the library's, so the error is kept instead. *)
Inductive ErrorData : Type :=
| NoData
| ErrorText (e : UnmarshalError).

Record RPCError : Type := {
  Code : Z;
  Message : string;
  Data : ErrorData
}.

(** The fields of the response carry the prefix [Resp], as one module
    cannot hold two projections of the same name. [RespResult] is [VNil] and
    [RespError] is [None] when the field is not set. *)
Record JSONRPCResponse : Type := {
  RespJSONRPC : string;
  RespID : value;
  RespResult : value;
  RespError : option RPCError
}.

(** *** Decoding the three payloads *)

Definition zero_request : JSONRPCRequest :=
  {| JSONRPC := ""; ID := VNil; Method := ""; Params := None |}.

Definition request_step (st : JSONRPCRequest * option UnmarshalError)
    (kv : string * json) : JSONRPCRequest * option UnmarshalError :=
  let (req, saved) := st in
  let (key, v) := kv in
  if field_is "jsonrpc" key then
    let (s, saved) := store_string "jsonrpc" v (JSONRPC req) saved in
    ({| JSONRPC := s; ID := ID req; Method := Method req; Params := Params req |}, saved)
  else if field_is "id" key then
    let (i, saved) := store_interface "id" v (ID req) saved in
    ({| JSONRPC := JSONRPC req; ID := i; Method := Method req; Params := Params req |}, saved)
  else if field_is "method" key then
    let (s, saved) := store_string "method" v (Method req) saved in
    ({| JSONRPC := JSONRPC req; ID := ID req; Method := s; Params := Params req |}, saved)
  else if field_is "params" key then
    ({| JSONRPC := JSONRPC req; ID := ID req; Method := Method req;
        Params := store_raw v |}, saved)
  else (req, saved).

Record CallParams : Type := {
  Name : string;
  Arguments : RawMessage
}.

Definition params_step (st : CallParams * option UnmarshalError)
    (kv : string * json) : CallParams * option UnmarshalError :=
  let (params, saved) := st in
  let (key, v) := kv in
  if field_is "name" key then
    let (s, saved) := store_string "name" v (Name params) saved in
    ({| Name := s; Arguments := Arguments params |}, saved)
  else if field_is "arguments" key then
    ({| Name := Name params; Arguments := store_raw v |}, saved)
  else (params, saved).

(** The anonymous [input] structs of the tool routines: [callGetCurrent]
    and [callGetDetailed] decode a [Location]; [callGetForecast] decodes a
    [Location] (here [FLocation]) and [Days]. *)
Record LocationInput : Type := {
  Location : string
}.

Definition location_step (st : LocationInput * option UnmarshalError)
    (kv : string * json) : LocationInput * option UnmarshalError :=
  let (input, saved) := st in
  let (key, v) := kv in
  if field_is "location" key then
    let (s, saved) := store_string "location" v (Location input) saved in
    ({| Location := s |}, saved)
  else (input, saved).

Record ForecastInput : Type := {
  FLocation : string;
  Days : Z
}.

Definition forecast_step (st : ForecastInput * option UnmarshalError)
    (kv : string * json) : ForecastInput * option UnmarshalError :=
  let (input, saved) := st in
  let (key, v) := kv in
  if field_is "location" key then
    let (s, saved) := store_string "location" v (FLocation input) saved in
    ({| FLocation := s; Days := Days input |}, saved)
  else if field_is "days" key then
    let (d, saved) := store_int "days" v (Days input) saved in
    ({| FLocation := FLocation input; Days := d |}, saved)
  else (input, saved).

(** *** Replies *)

Definition successResponse (id : value) (text : string) : JSONRPCResponse :=
  {| RespJSONRPC := "2.0";
     RespID := id;
     RespResult := VMap {[
       "content" := VSlice [VMap {[ "type" := VString "text"; "text" := VString text ]}]
     ]};
     RespError := None |}.

Definition errorResponse (id : value) (err : error) : JSONRPCResponse :=
  {| RespJSONRPC := "2.0";
     RespID := id;
     RespResult := VMap {[
       "content" := VSlice [VMap {[ "type" := VString "text";
                                    "text" := VString ("Error: " +:+ err) ]}];
       "isError" := VBool true
     ]};
     RespError := None |}.

Definition paramError (id : value) (message : string) (data : ErrorData)
  : JSONRPCResponse :=
  {| RespJSONRPC := "2.0";
     RespID := id;
     RespResult := VNil;
     RespError := Some {| Code := -32602; Message := message; Data := data |} |}.

(** *** The three tools *)

Definition callGetCurrent (id : value) (args : RawMessage) : Prog JSONRPCResponse :=
  match Unmarshal location_step args {| Location := "" |} with
  | Err err => Ret (paramError id "Invalid arguments" (ErrorText err))
  | Ok input =>
      if String.eqb (Location input) "" then
        Ret (paramError id "location is required" NoData)
      else
        r <- call (CallGetCurrent (Location input)) ;;
        match r with
        | (_, Some err) => Ret (errorResponse id err)
        | (result, None) => Ret (successResponse id result)
        end
  end.

Definition callGetForecast (id : value) (args : RawMessage) : Prog JSONRPCResponse :=
  match Unmarshal forecast_step args {| FLocation := ""; Days := 3 |} with
  | Err err => Ret (paramError id "Invalid arguments" (ErrorText err))
  | Ok input =>
      if String.eqb (FLocation input) "" then
        Ret (paramError id "location is required" NoData)
      else
        let days := if (Days input <? 1) || (Days input >? 3) then 3 else Days input in
        r <- call (CallGetForecast (FLocation input) days) ;;
        match r with
        | (_, Some err) => Ret (errorResponse id err)
        | (result, None) => Ret (successResponse id result)
        end
  end.

Definition callGetDetailed (id : value) (args : RawMessage) : Prog JSONRPCResponse :=
  match Unmarshal location_step args {| Location := "" |} with
  | Err err => Ret (paramError id "Invalid arguments" (ErrorText err))
  | Ok input =>
      if String.eqb (Location input) "" then
        Ret (paramError id "location is required" NoData)
      else
        r <- call (CallGetDetailed (Location input)) ;;
        match r with
        | (_, Some err) => Ret (errorResponse id err)
        | (result, None) => Ret (successResponse id result)
        end
  end.

(** *** Methods *)

Definition handleInitialize (req : JSONRPCRequest) : JSONRPCResponse :=
  {| RespJSONRPC := "2.0";
     RespID := ID req;
     RespResult := VMap {[
       "protocolVersion" := VString "2024-11-05";
       "serverInfo" := VMap {[ "name" := VString serverName;
                               "version" := VString serverVersion ]};
       "capabilities" := VMap {[ "tools" := VMap ∅ ]}
     ]};
     RespError := None |}.

Definition locationSchema : value :=
  VMap {[
    "type" := VString "string";
    "description" := VString ("City or location name (e.g. " +:+ dquote +:+ "London"
       +:+ dquote +:+ ", " +:+ dquote +:+ "New York" +:+ dquote +:+ ", " +:+ dquote
       +:+ "Tokyo" +:+ dquote +:+ ")")
  ]}.

Definition tools : list value := [
  VMap {[
    "name" := VString toolGetCurrent;
    "description" :=
      VString "Get current weather conditions for a location (one-line summary)";
    "inputSchema" := VMap {[
      "type" := VString "object";
      "properties" := VMap {[ "location" := locationSchema ]};
      "required" := VSlice [VString "location"]
    ]}
  ]};
  VMap {[
    "name" := VString toolGetForecast;
    "description" :=
      VString "Get weather forecast for a location (text format with ASCII art)";
    "inputSchema" := VMap {[
      "type" := VString "object";
      "properties" := VMap {[
        "location" := locationSchema;
        "days" := VMap {[
          "type" := VString "integer";
          "description" := VString "Number of forecast days (1-3, default: 3)";
          "default" := VInt 3;
          "minimum" := VInt 1;
          "maximum" := VInt 3
        ]}
      ]};
      "required" := VSlice [VString "location"]
    ]}
  ]};
  VMap {[
    "name" := VString toolGetDetailed;
    "description" :=
      VString "Get detailed weather data in JSON format (temperature, humidity, wind, UV index, etc.)";
    "inputSchema" := VMap {[
      "type" := VString "object";
      "properties" := VMap {[ "location" := locationSchema ]};
      "required" := VSlice [VString "location"]
    ]}
  ]}
].

Definition handleToolsList (req : JSONRPCRequest) : JSONRPCResponse :=
  {| RespJSONRPC := "2.0";
     RespID := ID req;
     RespResult := VMap {[ "tools" := VSlice tools ]};
     RespError := None |}.

Definition handleToolsCall (req : JSONRPCRequest) : Prog JSONRPCResponse :=
  match Unmarshal params_step (Params req) {| Name := ""; Arguments := None |} with
  | Err err =>
      Ret {| RespJSONRPC := "2.0";
             RespID := ID req;
             RespResult := VNil;
             RespError := Some {| Code := -32602; Message := "Invalid params";
                                  Data := ErrorText err |} |}
  | Ok params =>
      if String.eqb (Name params) toolGetCurrent then
        callGetCurrent (ID req) (Arguments params)
      else if String.eqb (Name params) toolGetForecast then
        callGetForecast (ID req) (Arguments params)
      else if String.eqb (Name params) toolGetDetailed then
        callGetDetailed (ID req) (Arguments params)
      else
        Ret {| RespJSONRPC := "2.0";
               RespID := ID req;
               RespResult := VNil;
               RespError := Some {| Code := -32602;
                                    Message := "Unknown tool: " +:+ Name params;
                                    Data := NoData |} |}
  end.

(** [None] is the [nil] response: nothing is sent. *)
Definition handleRequest (req : JSONRPCRequest) : Prog (option JSONRPCResponse) :=
  if String.eqb (Method req) "initialize" then
    Ret (Some (handleInitialize req))
  else if String.eqb (Method req) "initialized" then
    Ret None
  else if String.eqb (Method req) "tools/list" then
    Ret (Some (handleToolsList req))
  else if String.eqb (Method req) "tools/call" then
    resp <- handleToolsCall req ;; Ret (Some resp)
  else
    Ret (Some {| RespJSONRPC := "2.0";
                 RespID := ID req;
                 RespResult := VNil;
                 RespError := Some {| Code := -32601; Message := "Method not found";
                                      Data := NoData |} |}).

(** *** The message loop

    [stdout] is the sequence of replies printed so far, one line each.
    [run] consumes the lines that the scanner delivers. *)

Definition sendResponse (resp : JSONRPCResponse) (stdout : list JSONRPCResponse)
  : list JSONRPCResponse :=
  stdout ++ [resp].

Definition sendError (id : value) (code : Z) (message : string) (data : ErrorData)
    (stdout : list JSONRPCResponse) : list JSONRPCResponse :=
  let resp := {| RespJSONRPC := "2.0";
                 RespID := id;
                 RespResult := VNil;
                 RespError := Some {| Code := code; Message := message; Data := data |} |} in
  sendResponse resp stdout.

Section Loop.

(** The syntax layer of [encoding/json]: the tree of a well-formed line, or
    the text of the syntax error. *)
Variable scan : string -> Outcome json string.

Context {W : Type} `{WeatherService W}.

Definition Unmarshal_request (line : string) : Outcome JSONRPCRequest UnmarshalError :=
  match scan line with
  | Err msg => Err (SyntaxError msg)
  | Ok j => Unmarshal request_step (Some j) zero_request
  end.

(** One turn of the loop of [run]. *)
Definition run_line (line : string) (st : W * list JSONRPCResponse)
  : W * list JSONRPCResponse :=
  let (w, stdout) := st in
  if (String.length line =? 0)%nat then (w, stdout)
  else
    match Unmarshal_request line with
    | Err err => (w, sendError VNil (-32700) "Parse error" (ErrorText err) stdout)
    | Ok req =>
        let '(response, w, _) := exec (handleRequest req) w in
        match response with
        | Some resp => (w, sendResponse resp stdout)
        | None => (w, stdout)
        end
    end.

Fixpoint run (lines : list string) (st : W * list JSONRPCResponse)
  : W * list JSONRPCResponse :=
  match lines with
  | [] => st
  | line :: rest => run rest (run_line line st)
  end.

End Loop.

(** ** Notions used in the statements *)

(** The value a JSON object gives to a field: the last member whose key
    selects the field. *)
Fixpoint member (name : string) (ms : list (string * json)) : option json :=
  match ms with
  | [] => None
  | (k, v) :: rest =>
      match member name rest with
      | Some v' => Some v'
      | None => if field_is name k then Some v else None
      end
  end.

(** The argument [name] of a tool call; there is none when the arguments
    are missing or are not an object. *)
Definition argument (name : string) (args : RawMessage) : option json :=
  match args with
  | Some (JObject ms) => member name ms
  | _ => None
  end.

(** An integer literal: digits with neither fraction nor exponent. *)
Definition json_integer (v : json) : option Z :=
  match v with
  | JNumber (Decimal i Nil) => Some (Z.of_int i)
  | _ => None
  end.

(** The location that a tool routine decodes from its arguments, when the
    tool is one of the three and the arguments decode. *)
Definition decoded_location (name : string) (args : RawMessage) : option string :=
  if String.eqb name toolGetForecast then
    match Unmarshal forecast_step args {| FLocation := ""; Days := 3 |} with
    | Ok input => Some (FLocation input)
    | Err _ => None
    end
  else if String.eqb name toolGetCurrent || String.eqb name toolGetDetailed then
    match Unmarshal location_step args {| Location := "" |} with
    | Ok input => Some (Location input)
    | Err _ => None
    end
  else None.

(** The tool an operation of the service belongs to, and the location it
    is asked about. *)
Definition call_tool (c : Call) : string :=
  match c with
  | CallGetCurrent _ => toolGetCurrent
  | CallGetForecast _ _ => toolGetForecast
  | CallGetDetailed _ => toolGetDetailed
  end.

Definition call_location (c : Call) : string :=
  match c with
  | CallGetCurrent location | CallGetForecast location _ | CallGetDetailed location =>
      location
  end.

Definition known_tool (name : string) : Prop :=
  name = toolGetCurrent \/ name = toolGetForecast \/ name = toolGetDetailed.

Definition known_method (method : string) : Prop :=
  method = "initialize" \/ method = "initialized"
  \/ method = "tools/list" \/ method = "tools/call".

(** [returns p a]: the program [p] can end with [a], for some answers of
    the service. *)
Inductive returns {A : Type} : Prog A -> A -> Prop :=
| returns_Ret (a : A) : returns (Ret a) a
| returns_Invoke (c : Call) (k : string * option error -> Prog A)
    (r : string * option error) (a : A) :
    returns (k r) a -> returns (Invoke c k) a.

(** Reading a field of a map value, and a path of fields. *)
Definition field (k : string) (v : value) : option value :=
  match v with
  | VMap m => m !! k
  | _ => None
  end.

Definition path (ks : list string) (v : value) : option value :=
  fold_left (fun o k => match o with Some x => field k x | None => None end)
            ks (Some v).

(** The descriptor of a tool in a tool list. *)
Definition descriptor (name : string) (l : list value) : option value :=
  List.find (fun d => match field "name" d with
                      | Some (VString n) => String.eqb n name
                      | _ => false
                      end) l.

(** The request that [fetch] hands to the transport for a URL. *)
Definition request_for (u : string) : HTTP.Request :=
  HTTP.Header_Set {| HTTP.Method := "GET"; HTTP.URL := u; HTTP.Header := ∅ |}
    "User-Agent" "wttr-weather-mcp/1.0".

(** A status of the 2xx class. *)
Definition is_2xx (status : Z) : bool := (200 <=? status) && (status <=? 299).

(** ** Sample inputs

    The requests and stubs of the test suite, and a few more. *)

Definition int_lit (z : Z) : json := JNumber (Decimal (Z.to_int z) Nil).

Definition tool_request (id : value) (name : string) (args : json) : JSONRPCRequest :=
  {| JSONRPC := "2.0"; ID := id; Method := "tools/call";
     Params := Some (JObject [("name", JString name); ("arguments", args)]) |}.

Definition id1 : value := VFloat64 (Decimal (Pos (D1 Nil)) Nil).

Definition req_london : JSONRPCRequest :=
  tool_request id1 toolGetCurrent (JObject [("location", JString "London")]).

Definition req_nowhere : JSONRPCRequest :=
  tool_request id1 toolGetCurrent (JObject [("location", JString "Nowhere")]).

Definition req_no_location : JSONRPCRequest :=
  tool_request id1 toolGetCurrent (JObject []).

Definition req_unknown_tool : JSONRPCRequest :=
  tool_request id1 "nonexistent_tool" (JObject []).

Definition req_unknown_method : JSONRPCRequest :=
  {| JSONRPC := "2.0"; ID := id1; Method := "unknown/method"; Params := None |}.

Definition forecast_args (location : string) (days : json) : RawMessage :=
  Some (JObject [("location", JString location); ("days", days)]).

Definition mock_ok : mockWeather :=
  {| currentResult := "London: clear 20C"; forecastResult := "forecast data";
     detailedResult := "{}"; err := None; lastLocation := ""; lastDays := 0 |}.

Definition mock_failing : mockWeather :=
  {| currentResult := ""; forecastResult := ""; detailedResult := "";
     err := Some "network timeout"; lastLocation := ""; lastDays := 0 |}.

(** Three input lines and the syntax layer restricted to them: every other
    line is reported as malformed.
    - [line_list_no_id] is the line {"jsonrpc":"2.0","method":"tools/list"},
    - [line_initialized_id] is {"jsonrpc":"2.0","id":7,"method":"initialized"},
    - [line_garbage] is not JSON. *)
Definition quoted (s : string) : string := dquote +:+ s +:+ dquote.

Definition line_list_no_id : string :=
  "{" +:+ quoted "jsonrpc" +:+ ":" +:+ quoted "2.0" +:+ ","
      +:+ quoted "method" +:+ ":" +:+ quoted "tools/list" +:+ "}".

Definition line_initialized_id : string :=
  "{" +:+ quoted "jsonrpc" +:+ ":" +:+ quoted "2.0" +:+ ","
      +:+ quoted "id" +:+ ":7,"
      +:+ quoted "method" +:+ ":" +:+ quoted "initialized" +:+ "}".

Definition line_garbage : string := "not json".

Definition scan_samples (line : string) : Outcome json string :=
  if String.eqb line line_list_no_id then
    Ok (JObject [("jsonrpc", JString "2.0"); ("method", JString "tools/list")])
  else if String.eqb line line_initialized_id then
    Ok (JObject [("jsonrpc", JString "2.0"); ("id", int_lit 7);
                 ("method", JString "initialized")])
  else Err "invalid character".

Definition req_list_no_id : JSONRPCRequest :=
  {| JSONRPC := "2.0"; ID := VNil; Method := "tools/list"; Params := None |}.

Definition req_initialized_id : JSONRPCRequest :=
  {| JSONRPC := "2.0"; ID := VFloat64 (Decimal (Pos (D7 Nil)) Nil);
     Method := "initialized"; Params := None |}.

(** Transports that answer every request alike, and a URL parser that
    accepts every URL. *)
Definition transport_answering (status : Z) (body : string)
  : HTTP.Request -> Outcome HTTP.Response error :=
  fun _ => Ok {| HTTP.StatusCode := status; HTTP.Body := (body, None) |}.

Definition url_accepted : string -> option error := fun _ => None.

Definition london_url : string :=
  "https://wttr.in/London?format=%l:+%c+%t+(%f)+%h+%w".

(** ** Further notions *)

(** [invokes p c]: the program [p] can invoke the operation [c], for some
    answers of the service. *)
Inductive invokes {A : Type} : Prog A -> Call -> Prop :=
| invokes_here (c : Call) (k : string * option error -> Prog A) :
    invokes (Invoke c k) c
| invokes_later (c : Call) (k : string * option error -> Prog A)
    (r : string * option error) (c' : Call) :
    invokes (k r) c' -> invokes (Invoke c k) c'.

(** A reply that carries an error object and no result. *)
Definition error_reply (id : value) (code : Z) (message : string) (data : ErrorData)
  : JSONRPCResponse :=
  {| RespJSONRPC := "2.0"; RespID := id; RespResult := VNil;
     RespError := Some {| Code := code; Message := message; Data := data |} |}.

(** The reply of a tool routine to what the service returned. *)
Definition tool_reply (id : value) (r : string * option error) : JSONRPCResponse :=
  match r with
  | (_, Some e) => errorResponse id e
  | (result, None) => successResponse id result
  end.


(** A JSON value that is a string. *)
Definition json_string (v : json) : option string :=
  match v with
  | JString s => Some s
  | _ => None
  end.

(** The query that the client appends for a forecast of [days] days. *)
Definition forecast_query (days : Z) : string := "?" +:+ itoa days +:+ "&lang=ru".

(** More sample inputs. *)
Definition req_initialize : JSONRPCRequest :=
  {| JSONRPC := "2.0"; ID := id1; Method := "initialize"; Params := None |}.

Definition req_forecast_tokyo : JSONRPCRequest :=
  tool_request id1 toolGetForecast
    (JObject [("location", JString "Tokyo"); ("days", int_lit 2)]).

Definition req_no_params : JSONRPCRequest :=
  {| JSONRPC := "2.0"; ID := id1; Method := "tools/call"; Params := None |}.

Definition req_numeric_location : JSONRPCRequest :=
  tool_request id1 toolGetDetailed (JObject [("location", int_lit 5)]).



(** * Properties *)

(** ** The decoder *)

Section Decoder.

Lemma member_snoc name ms k v :
  member name (ms ++ [(k, v)]) = if field_is name k then Some v else member name ms.
Proof.
  induction ms as [|[k' v'] ms IH]; simpl.
  - reflexivity.
  - rewrite IH. destruct (field_is name k); [reflexivity|].
    destruct (member name ms); reflexivity.
Qed.

Lemma field_is_days_not_location k :
  field_is "days" k = true -> field_is "location" k = false.
Proof.
  unfold field_is. intros Hk. apply String.eqb_eq in Hk. rewrite Hk. reflexivity.
Qed.

(** Once an error is recorded it stays. *)
Lemma fold_keeps_error {T : Type}
    (step : T * option UnmarshalError -> string * json -> T * option UnmarshalError) :
  (forall t e kv, snd (step (t, Some e) kv) = Some e) ->
  forall ms t e, snd (fold_left step ms (t, Some e)) = Some e.
Proof.
  intros Hstep ms. induction ms as [|kv ms IH]; intros t e; simpl.
  - reflexivity.
  - specialize (Hstep t e kv). destruct (step (t, Some e) kv) as [t' s'].
    simpl in Hstep. subst s'. apply IH.
Qed.

Lemma location_step_keeps_error t e kv :
  snd (location_step (t, Some e) kv) = Some e.
Proof.
  destruct kv as [k v]. unfold location_step.
  destruct (field_is "location" k); [|reflexivity].
  destruct v; reflexivity.
Qed.

Lemma forecast_step_keeps_error t e kv :
  snd (forecast_step (t, Some e) kv) = Some e.
Proof.
  destruct kv as [k v]. unfold forecast_step.
  destruct (field_is "location" k).
  - destruct v; reflexivity.
  - destruct (field_is "days" k); [|reflexivity].
    destruct v; try reflexivity. simpl. destruct (ParseInt n); reflexivity.
Qed.

(** What the decoded [Location] is, from the members of the object. *)
Lemma location_fold ms init s0 :
  let r := fold_left location_step ms (init, s0) in
  (member "location" ms = None -> Location (fst r) = Location init)
  /\ (forall s, member "location" ms = Some (JString s) -> Location (fst r) = s).
Proof.
  induction ms as [|[k v] ms IH] using rev_ind; simpl.
  - split; [reflexivity | discriminate].
  - rewrite fold_left_app, member_snoc. simpl.
    destruct (fold_left location_step ms (init, s0)) as [t saved].
    simpl in IH. unfold location_step.
    destruct (field_is "location" k).
    + split; [discriminate|]. intros s [= ->]. reflexivity.
    + exact IH.
Qed.

Lemma forecast_fold_location ms init s0 :
  let r := fold_left forecast_step ms (init, s0) in
  (member "location" ms = None -> FLocation (fst r) = FLocation init)
  /\ (forall s, member "location" ms = Some (JString s) -> FLocation (fst r) = s).
Proof.
  induction ms as [|[k v] ms IH] using rev_ind; simpl.
  - split; [reflexivity | discriminate].
  - rewrite fold_left_app, member_snoc. simpl.
    destruct (fold_left forecast_step ms (init, s0)) as [t saved].
    simpl in IH. unfold forecast_step.
    destruct (field_is "location" k).
    + split; [discriminate|]. intros s [= ->]. reflexivity.
    + destruct (field_is "days" k); [|exact IH].
      destruct (store_int "days" v (Days t) saved). exact IH.
Qed.

(** What the decoded [Days] is. *)
Lemma forecast_fold_days ms init s0 :
  let r := fold_left forecast_step ms (init, s0) in
  (member "days" ms = None -> Days (fst r) = Days init)
  /\ (forall n z, member "days" ms = Some (JNumber n) -> ParseInt n = Some z ->
      Days (fst r) = z).
Proof.
  induction ms as [|[k v] ms IH] using rev_ind; simpl.
  - split; [reflexivity | discriminate].
  - rewrite fold_left_app, member_snoc. simpl.
    destruct (fold_left forecast_step ms (init, s0)) as [t saved].
    simpl in IH. unfold forecast_step.
    destruct (field_is "days" k) eqn:Hd.
    + rewrite (field_is_days_not_location k Hd).
      split; [discriminate|]. intros n z [= ->] Hz. simpl. rewrite Hz. reflexivity.
    + destruct (field_is "location" k); [|exact IH].
      destruct (store_string "location" v (FLocation t) saved). exact IH.
Qed.

(** A [days] that is neither [null] nor an integer of the int range makes
    the decoding fail, wherever it stands in the object. *)
Lemma forecast_fold_bad_days ms init s0 v :
  member "days" ms = Some v -> v <> JNull ->
  (forall n, v = JNumber n -> ParseInt n = None) ->
  snd (fold_left forecast_step ms (init, s0)) <> None.
Proof.
  intros Hm Hnull Hbad. revert Hm.
  induction ms as [|[k v'] ms IH] using rev_ind; simpl; [discriminate|].
  rewrite fold_left_app, member_snoc. simpl.
  destruct (fold_left forecast_step ms (init, s0)) as [t saved].
  simpl in IH.
  destruct (field_is "days" k) eqn:Hd.
  - intros [= ->]. unfold forecast_step.
    rewrite (field_is_days_not_location k Hd), Hd.
    destruct v as [| b | n | s | l | ms']; simpl;
      try (destruct saved; discriminate); [congruence|].
    rewrite (Hbad n eq_refl). destruct saved; discriminate.
  - intros Hm. specialize (IH Hm).
    destruct saved as [e|]; [|congruence].
    rewrite forecast_step_keeps_error. discriminate.
Qed.

End Decoder.

(** ** The tool routines *)

Section Tools.

Lemma callGetCurrent_invokes id args input :
  Unmarshal location_step args {| Location := "" |} = Ok input ->
  Location input <> "" ->
  callGetCurrent id args =
    Invoke (CallGetCurrent (Location input))
      (fun r => match r with
                | (_, Some e) => Ret (errorResponse id e)
                | (result, None) => Ret (successResponse id result)
                end).
Proof.
  intros Hdec Hloc. unfold callGetCurrent. rewrite Hdec.
  apply String.eqb_neq in Hloc. rewrite Hloc. reflexivity.
Qed.

Lemma callGetDetailed_invokes id args input :
  Unmarshal location_step args {| Location := "" |} = Ok input ->
  Location input <> "" ->
  callGetDetailed id args =
    Invoke (CallGetDetailed (Location input))
      (fun r => match r with
                | (_, Some e) => Ret (errorResponse id e)
                | (result, None) => Ret (successResponse id result)
                end).
Proof.
  intros Hdec Hloc. unfold callGetDetailed. rewrite Hdec.
  apply String.eqb_neq in Hloc. rewrite Hloc. reflexivity.
Qed.

Lemma callGetForecast_invokes id args input :
  Unmarshal forecast_step args {| FLocation := ""; Days := 3 |} = Ok input ->
  FLocation input <> "" ->
  callGetForecast id args =
    Invoke (CallGetForecast (FLocation input)
              (if (Days input <? 1) || (Days input >? 3) then 3 else Days input))
      (fun r => match r with
                | (_, Some e) => Ret (errorResponse id e)
                | (result, None) => Ret (successResponse id result)
                end).
Proof.
  intros Hdec Hloc. unfold callGetForecast. rewrite Hdec.
  apply String.eqb_neq in Hloc. rewrite Hloc. reflexivity.
Qed.

(** A tool call that passes validation reaches the service once, and
    shapes what the service returns. *)
Lemma handleToolsCall_invokes req params loc :
  Unmarshal params_step (Params req) {| Name := ""; Arguments := None |} = Ok params ->
  decoded_location (Name params) (Arguments params) = Some loc ->
  loc <> "" ->
  exists c,
    call_tool c = Name params
    /\ call_location c = loc
    /\ handleToolsCall req =
      Invoke c (fun r => match r with
                         | (_, Some e) => Ret (errorResponse (ID req) e)
                         | (result, None) => Ret (successResponse (ID req) result)
                         end).
Proof.
  intros Hp Hloc Hne. unfold handleToolsCall. rewrite Hp.
  unfold decoded_location in Hloc.
  destruct (String.eqb (Name params) toolGetForecast) eqn:Hf.
  - apply String.eqb_eq in Hf. rewrite Hf. simpl.
    destruct (Unmarshal forecast_step _ _) as [input|] eqn:Hdec; [|discriminate].
    injection Hloc as <-. eexists (CallGetForecast _ _).
    split; [reflexivity|]. split; [reflexivity|].
    eapply callGetForecast_invokes; eassumption.
  - destruct (String.eqb (Name params) toolGetCurrent) eqn:Hc; simpl in Hloc.
    + apply String.eqb_eq in Hc. rewrite Hc.
      destruct (Unmarshal location_step _ _) as [input|] eqn:Hdec; [|discriminate].
      injection Hloc as <-. eexists (CallGetCurrent _).
      split; [reflexivity|]. split; [reflexivity|].
      eapply callGetCurrent_invokes; eassumption.
    + destruct (String.eqb (Name params) toolGetDetailed) eqn:Hd; [|discriminate].
      apply String.eqb_eq in Hd. rewrite Hd.
      destruct (Unmarshal location_step _ _) as [input|] eqn:Hdec; [|discriminate].
      injection Hloc as <-. eexists (CallGetDetailed _).
      split; [reflexivity|]. split; [reflexivity|].
      eapply callGetDetailed_invokes; eassumption.
Qed.

Lemma handleRequest_tools_call req :
  Method req = "tools/call" ->
  handleRequest req = bind (handleToolsCall req) (fun resp => Ret (Some resp)).
Proof. intros Hm. unfold handleRequest. rewrite Hm. reflexivity. Qed.

End Tools.

(** C1. When a tool call with valid params and a non-empty location reaches
    the service and the service returns an error, the reply has no error
    object: its result has [isError] set to [true] and one text block whose
    text is "Error: " followed by the text of the error. *)
Theorem C1_gateway_failure_in_band (req : JSONRPCRequest) (params : CallParams)
    (loc : string) :
  Method req = "tools/call" ->
  Unmarshal params_step (Params req) {| Name := ""; Arguments := None |} = Ok params ->
  decoded_location (Name params) (Arguments params) = Some loc ->
  loc <> "" ->
  exists c : Call,
    call_tool c = Name params /\ call_location c = loc /\
    forall (W : Type) (S : WeatherService W) (w w' : W) (result : string) (e : error),
      perform c w = ((result, Some e), w') ->
      exists resp,
        exec (handleRequest req) w = (Some resp, w', [c])
        /\ RespID resp = ID req
        /\ RespError resp = None
        /\ RespResult resp = VMap {[
             "content" := VSlice [VMap {[ "type" := VString "text";
                                          "text" := VString ("Error: " +:+ e) ]}];
             "isError" := VBool true ]}
        /\ field "isError" (RespResult resp) = Some (VBool true)
        /\ field "content" (RespResult resp) =
             Some (VSlice [VMap {[ "type" := VString "text";
                                   "text" := VString ("Error: " +:+ e) ]}]).
Proof.
  intros Hm Hp Hloc Hne.
  destruct (handleToolsCall_invokes req params loc Hp Hloc Hne) as (c & Htool & Hcloc & Hc).
  exists c. split; [exact Htool|]. split; [exact Hcloc|].
  intros W S w w' result e Hperf.
  exists (errorResponse (ID req) e).
  rewrite (handleRequest_tools_call req Hm), Hc. simpl. rewrite Hperf. simpl.
  repeat split; reflexivity.
Qed.

Lemma C1_witness :
  exists c : Call,
    call_tool c = toolGetCurrent /\ call_location c = "Nowhere" /\
    forall (W : Type) (S : WeatherService W) (w w' : W) (result : string) (e : error),
      perform c w = ((result, Some e), w') ->
      exists resp,
        exec (handleRequest req_nowhere) w = (Some resp, w', [c])
        /\ RespID resp = ID req_nowhere
        /\ RespError resp = None
        /\ RespResult resp = VMap {[
             "content" := VSlice [VMap {[ "type" := VString "text";
                                          "text" := VString ("Error: " +:+ e) ]}];
             "isError" := VBool true ]}
        /\ field "isError" (RespResult resp) = Some (VBool true)
        /\ field "content" (RespResult resp) =
             Some (VSlice [VMap {[ "type" := VString "text";
                                   "text" := VString ("Error: " +:+ e) ]}]).
Proof.
  apply (C1_gateway_failure_in_band req_nowhere
           {| Name := toolGetCurrent;
              Arguments := Some (JObject [("location", JString "Nowhere")]) |}
           "Nowhere").
  - reflexivity.
  - reflexivity.
  - reflexivity.
  - discriminate.
Defined.

(** The test [TestCallWeatherError], run against the failing stub. *)
Example weather_error_is_in_band :
  exec (handleRequest req_nowhere) mock_failing =
    (Some (errorResponse id1 "network timeout"),
     mock_seen mock_failing "Nowhere" 0,
     [CallGetCurrent "Nowhere"]).
Proof. reflexivity. Qed.

(** C7. When a tool call with valid arguments reaches the service and the
    service succeeds, the reply echoes the identifier, has no error object,
    and its result is exactly one text content block holding the body that
    the service returned, unchanged. *)
Theorem C7_success_passes_body_through (req : JSONRPCRequest) (params : CallParams)
    (loc : string) :
  Method req = "tools/call" ->
  Unmarshal params_step (Params req) {| Name := ""; Arguments := None |} = Ok params ->
  decoded_location (Name params) (Arguments params) = Some loc ->
  loc <> "" ->
  exists c : Call,
    call_tool c = Name params /\ call_location c = loc /\
    forall (W : Type) (S : WeatherService W) (w w' : W) (body : string),
      perform c w = ((body, None), w') ->
      exists resp,
        exec (handleRequest req) w = (Some resp, w', [c])
        /\ RespID resp = ID req
        /\ RespError resp = None
        /\ RespResult resp = VMap {[
             "content" := VSlice [VMap {[ "type" := VString "text";
                                          "text" := VString body ]}] ]}.
Proof.
  intros Hm Hp Hloc Hne.
  destruct (handleToolsCall_invokes req params loc Hp Hloc Hne) as (c & Htool & Hcloc & Hc).
  exists c. split; [exact Htool|]. split; [exact Hcloc|].
  intros W S w w' body Hperf.
  exists (successResponse (ID req) body).
  rewrite (handleRequest_tools_call req Hm), Hc. simpl. rewrite Hperf. simpl.
  repeat split; reflexivity.
Qed.

Lemma C7_witness :
  exists c : Call,
    call_tool c = toolGetCurrent /\ call_location c = "London" /\
    forall (W : Type) (S : WeatherService W) (w w' : W) (body : string),
      perform c w = ((body, None), w') ->
      exists resp,
        exec (handleRequest req_london) w = (Some resp, w', [c])
        /\ RespID resp = ID req_london
        /\ RespError resp = None
        /\ RespResult resp = VMap {[
             "content" := VSlice [VMap {[ "type" := VString "text";
                                          "text" := VString body ]}] ]}.
Proof.
  apply (C7_success_passes_body_through req_london
           {| Name := toolGetCurrent;
              Arguments := Some (JObject [("location", JString "London")]) |}
           "London").
  - reflexivity.
  - reflexivity.
  - reflexivity.
  - discriminate.
Defined.

(** The end-to-end example of the specification: the stub answers
    "London: clear 20C". *)
Example london_end_to_end :
  exec (handleRequest req_london) mock_ok =
    (Some {| RespJSONRPC := "2.0"; RespID := id1;
             RespResult := VMap {[
               "content" := VSlice [VMap {[ "type" := VString "text";
                                            "text" := VString "London: clear 20C" ]}] ]};
             RespError := None |},
     mock_seen mock_ok "London" 0,
     [CallGetCurrent "London"]).
Proof. reflexivity. Qed.

(** ** Missing location *)

Section MissingLocation.

Variables (id : value) (args : RawMessage).
Hypothesis Hmissing :
  argument "location" args = None \/ argument "location" args = Some (JString "").

Lemma location_input_missing input :
  Unmarshal location_step args {| Location := "" |} = Ok input -> Location input = "".
Proof using Hmissing.
  unfold Unmarshal. destruct args as [[| b | n | s | l | ms]|]; try discriminate.
  - intros [= <-]. reflexivity.
  - pose proof (location_fold ms {| Location := "" |} None) as [Hnone Hsome].
    destruct (fold_left location_step ms _) as [t [e|]]; [discriminate|].
    intros [= <-]. simpl in *.
    destruct Hmissing as [H|H]; [exact (Hnone H) | exact (Hsome "" H)].
Qed.

Lemma forecast_input_missing input :
  Unmarshal forecast_step args {| FLocation := ""; Days := 3 |} = Ok input ->
  FLocation input = "".
Proof using Hmissing.
  unfold Unmarshal. destruct args as [[| b | n | s | l | ms]|]; try discriminate.
  - intros [= <-]. reflexivity.
  - pose proof (forecast_fold_location ms {| FLocation := ""; Days := 3 |} None)
      as [Hnone Hsome].
    destruct (fold_left forecast_step ms _) as [t [e|]]; [discriminate|].
    intros [= <-]. simpl in *.
    destruct Hmissing as [H|H]; [exact (Hnone H) | exact (Hsome "" H)].
Qed.

Lemma callGetCurrent_missing :
  exists message data, callGetCurrent id args = Ret (paramError id message data).
Proof using Hmissing.
  unfold callGetCurrent.
  destruct (Unmarshal location_step args _) as [input|e] eqn:Hdec; [|eauto].
  rewrite (location_input_missing input Hdec). simpl. eauto.
Qed.

Lemma callGetDetailed_missing :
  exists message data, callGetDetailed id args = Ret (paramError id message data).
Proof using Hmissing.
  unfold callGetDetailed.
  destruct (Unmarshal location_step args _) as [input|e] eqn:Hdec; [|eauto].
  rewrite (location_input_missing input Hdec). simpl. eauto.
Qed.

Lemma callGetForecast_missing :
  exists message data, callGetForecast id args = Ret (paramError id message data).
Proof using Hmissing.
  unfold callGetForecast.
  destruct (Unmarshal forecast_step args _) as [input|e] eqn:Hdec; [|eauto].
  rewrite (forecast_input_missing input Hdec). simpl. eauto.
Qed.

End MissingLocation.

(** C3. A call of one of the three tools whose [location] argument is absent
    or the empty string is answered with a protocol error of code -32602;
    the reply has no result (so no [isError] result), and the service is
    not invoked. *)
Theorem C3_missing_location_is_protocol_error (req : JSONRPCRequest)
    (params : CallParams) :
  Method req = "tools/call" ->
  Unmarshal params_step (Params req) {| Name := ""; Arguments := None |} = Ok params ->
  known_tool (Name params) ->
  argument "location" (Arguments params) = None
    \/ argument "location" (Arguments params) = Some (JString "") ->
  exists resp rpcerr,
    handleRequest req = Ret (Some resp)
    /\ RespID resp = ID req
    /\ RespError resp = Some rpcerr
    /\ Code rpcerr = -32602
    /\ RespResult resp = VNil
    /\ forall (W : Type) (S : WeatherService W) (w : W),
         exec (handleRequest req) w = (Some resp, w, []).
Proof.
  intros Hm Hp Hknown Hmissing.
  assert (exists message data,
             handleToolsCall req = Ret (paramError (ID req) message data))
    as (message & data & Hcall).
  { unfold handleToolsCall. rewrite Hp.
    destruct Hknown as [-> | [-> | ->]]; simpl.
    - apply callGetCurrent_missing, Hmissing.
    - apply callGetForecast_missing, Hmissing.
    - apply callGetDetailed_missing, Hmissing. }
  exists (paramError (ID req) message data),
         {| Code := -32602; Message := message; Data := data |}.
  rewrite (handleRequest_tools_call req Hm), Hcall. simpl.
  repeat split; reflexivity.
Qed.

Lemma C3_witness :
  exists resp rpcerr,
    handleRequest req_no_location = Ret (Some resp)
    /\ RespID resp = ID req_no_location
    /\ RespError resp = Some rpcerr
    /\ Code rpcerr = -32602
    /\ RespResult resp = VNil
    /\ forall (W : Type) (S : WeatherService W) (w : W),
         exec (handleRequest req_no_location) w = (Some resp, w, []).
Proof.
  apply (C3_missing_location_is_protocol_error req_no_location
           {| Name := toolGetCurrent; Arguments := Some (JObject []) |}).
  - reflexivity.
  - reflexivity.
  - left. reflexivity.
  - left. reflexivity.
Defined.

(** C4. A tool call whose decoded tool name is not one of the three tools
    is answered with a protocol error of code -32602 whose message names
    the tool; a request whose method is not one of the four methods is
    answered with a protocol error of code -32601. *)
Theorem C4_unknown_tool_and_method (req : JSONRPCRequest) :
  (forall params,
      Method req = "tools/call" ->
      Unmarshal params_step (Params req) {| Name := ""; Arguments := None |} = Ok params ->
      ~ known_tool (Name params) ->
      handleRequest req =
        Ret (Some {| RespJSONRPC := "2.0"; RespID := ID req; RespResult := VNil;
                     RespError := Some {| Code := -32602;
                                          Message := "Unknown tool: " +:+ Name params;
                                          Data := NoData |} |}))
  /\ (~ known_method (Method req) ->
      handleRequest req =
        Ret (Some {| RespJSONRPC := "2.0"; RespID := ID req; RespResult := VNil;
                     RespError := Some {| Code := -32601;
                                          Message := "Method not found";
                                          Data := NoData |} |})).
Proof.
  split.
  - intros params Hm Hp Hunknown.
    rewrite (handleRequest_tools_call req Hm). unfold handleToolsCall. rewrite Hp.
    unfold known_tool in Hunknown.
    destruct (String.eqb (Name params) toolGetCurrent) eqn:H1;
      [apply String.eqb_eq in H1; tauto|].
    destruct (String.eqb (Name params) toolGetForecast) eqn:H2;
      [apply String.eqb_eq in H2; tauto|].
    destruct (String.eqb (Name params) toolGetDetailed) eqn:H3;
      [apply String.eqb_eq in H3; tauto|].
    reflexivity.
  - intros Hunknown. unfold handleRequest, known_method in *.
    destruct (String.eqb (Method req) "initialize") eqn:H1;
      [apply String.eqb_eq in H1; tauto|].
    destruct (String.eqb (Method req) "initialized") eqn:H2;
      [apply String.eqb_eq in H2; tauto|].
    destruct (String.eqb (Method req) "tools/list") eqn:H3;
      [apply String.eqb_eq in H3; tauto|].
    destruct (String.eqb (Method req) "tools/call") eqn:H4;
      [apply String.eqb_eq in H4; tauto|].
    reflexivity.
Qed.

Lemma C4_witness :
  handleRequest req_unknown_tool =
    Ret (Some {| RespJSONRPC := "2.0"; RespID := id1; RespResult := VNil;
                 RespError := Some {| Code := -32602;
                                      Message := "Unknown tool: nonexistent_tool";
                                      Data := NoData |} |})
  /\ handleRequest req_unknown_method =
    Ret (Some {| RespJSONRPC := "2.0"; RespID := id1; RespResult := VNil;
                 RespError := Some {| Code := -32601;
                                      Message := "Method not found";
                                      Data := NoData |} |}).
Proof.
  split.
  - apply (proj1 (C4_unknown_tool_and_method req_unknown_tool)
             {| Name := "nonexistent_tool"; Arguments := Some (JObject []) |}).
    + reflexivity.
    + reflexivity.
    + unfold known_tool. simpl. intros [H | [H | H]]; discriminate H.
  - apply (proj2 (C4_unknown_tool_and_method req_unknown_method)).
    unfold known_method. simpl. intros [H | [H | [H | H]]]; discriminate H.
Defined.

(** ** What the dispatcher can reply *)

Section Replies.

Lemma exec_returns {W : Type} `{WeatherService W} {A : Type} (p : Prog A) :
  forall (w w' : W) (a : A) (calls : list Call),
    exec p w = (a, w', calls) -> returns p a.
Proof.
  induction p as [a0 | c k IH]; intros w w' a calls Hexec; simpl in Hexec.
  - injection Hexec as <- _ _. constructor.
  - destruct (perform c w) as [r w1].
    destruct (exec (k r) w1) as [[a1 w2] calls1] eqn:Hk.
    injection Hexec as <- _ _.
    econstructor. eapply IH. exact Hk.
Qed.

Lemma returns_bind {A B : Type} (p : Prog A) (f : A -> Prog B) (b : B) :
  returns (bind p f) b -> exists a, returns p a /\ returns (f a) b.
Proof.
  induction p as [a0 | c k IH]; simpl; intros Hret.
  - exists a0. split; [constructor | exact Hret].
  - inversion Hret as [| c' k' r b' Hk]; subst.
    destruct (IH r Hk) as (a & Ha & Hb).
    exists a. split; [econstructor; exact Ha | exact Hb].
Qed.

(** What a tool routine answers after the service has returned. *)
Lemma shaped_reply id (r : string * option error) resp :
  returns (match r with
           | (_, Some e) => Ret (errorResponse id e)
           | (result, None) => Ret (successResponse id result)
           end) resp ->
  RespID resp = id /\ RespError resp = None.
Proof.
  destruct r as [result [e|]]; intros Hret; inversion Hret; subst; split; reflexivity.
Qed.

Lemma invoked_reply id c (r : Prog JSONRPCResponse) resp :
  r = bind (call c) (fun r => match r with
                              | (_, Some e) => Ret (errorResponse id e)
                              | (result, None) => Ret (successResponse id result)
                              end) ->
  returns r resp -> RespID resp = id /\ RespError resp = None.
Proof.
  intros -> Hret. simpl in Hret.
  inversion Hret as [| c' k' r' b' Hk]; subst.
  eapply shaped_reply. exact Hk.
Qed.

Lemma paramError_reply id message data resp :
  returns (Ret (paramError id message data)) resp ->
  RespID resp = id /\ forall e, RespError resp = Some e -> Code e = -32602.
Proof.
  intros Hret. inversion Hret; subst. split; [reflexivity|].
  intros e [= <-]. reflexivity.
Qed.

Ltac tool_reply :=
  match goal with
  | H : returns (Ret (paramError _ _ _)) _ |- _ =>
      apply paramError_reply in H; exact H
  | H : returns (bind (call _) _) _ |- _ =>
      eapply invoked_reply in H; [|reflexivity];
      destruct H as [Hid Hnone]; split; [exact Hid|];
      intros e He; rewrite Hnone in He; discriminate He
  end.

Lemma callGetCurrent_reply id args resp :
  returns (callGetCurrent id args) resp ->
  RespID resp = id /\ forall e, RespError resp = Some e -> Code e = -32602.
Proof.
  unfold callGetCurrent. intros Hret.
  destruct (Unmarshal location_step args _) as [input|e0]; [|tool_reply].
  destruct (String.eqb (Location input) ""); tool_reply.
Qed.

Lemma callGetDetailed_reply id args resp :
  returns (callGetDetailed id args) resp ->
  RespID resp = id /\ forall e, RespError resp = Some e -> Code e = -32602.
Proof.
  unfold callGetDetailed. intros Hret.
  destruct (Unmarshal location_step args _) as [input|e0]; [|tool_reply].
  destruct (String.eqb (Location input) ""); tool_reply.
Qed.

Lemma callGetForecast_reply id args resp :
  returns (callGetForecast id args) resp ->
  RespID resp = id /\ forall e, RespError resp = Some e -> Code e = -32602.
Proof.
  unfold callGetForecast. intros Hret.
  destruct (Unmarshal forecast_step args _) as [input|e0]; [|tool_reply].
  destruct (String.eqb (FLocation input) ""); tool_reply.
Qed.

Lemma handleToolsCall_reply req resp :
  returns (handleToolsCall req) resp ->
  RespID resp = ID req /\ forall e, RespError resp = Some e -> Code e = -32602.
Proof.
  unfold handleToolsCall. intros Hret.
  destruct (Unmarshal params_step (Params req) _) as [params|e0].
  - destruct (String.eqb (Name params) toolGetCurrent);
      [exact (callGetCurrent_reply _ _ _ Hret)|].
    destruct (String.eqb (Name params) toolGetForecast);
      [exact (callGetForecast_reply _ _ _ Hret)|].
    destruct (String.eqb (Name params) toolGetDetailed);
      [exact (callGetDetailed_reply _ _ _ Hret)|].
    inversion Hret; subst. split; [reflexivity|]. intros e [= <-]. reflexivity.
  - inversion Hret; subst. split; [reflexivity|]. intros e [= <-]. reflexivity.
Qed.

(** Every outcome of [handleRequest]: nothing for "initialized", otherwise
    one reply that echoes the identifier and whose error code, if it has an
    error, is -32601 or -32602. *)
Lemma handleRequest_reply req a :
  returns (handleRequest req) a ->
  (Method req = "initialized" /\ a = None)
  \/ (Method req <> "initialized"
      /\ exists resp, a = Some resp /\ RespID resp = ID req
         /\ forall e, RespError resp = Some e -> Code e = -32601 \/ Code e = -32602).
Proof.
  unfold handleRequest. intros Hret.
  destruct (String.eqb (Method req) "initialize") eqn:H1.
  { apply String.eqb_eq in H1. right. split; [rewrite H1; discriminate|].
    inversion Hret; subst. eexists. repeat split. discriminate. }
  destruct (String.eqb (Method req) "initialized") eqn:H2.
  { apply String.eqb_eq in H2. left. inversion Hret; subst. split; [exact H2 | reflexivity]. }
  apply String.eqb_neq in H2. right. split; [exact H2|].
  destruct (String.eqb (Method req) "tools/list") eqn:H3.
  { inversion Hret; subst. eexists. repeat split. discriminate. }
  destruct (String.eqb (Method req) "tools/call") eqn:H4.
  - apply returns_bind in Hret as (resp & Hresp & Hsome).
    inversion Hsome; subst.
    apply handleToolsCall_reply in Hresp as [Hid Hcode].
    exists resp. repeat split; [exact Hid|]. intros e He. right. exact (Hcode e He).
  - inversion Hret; subst. eexists. repeat split.
    intros e [= <-]. left. reflexivity.
Qed.

Lemma nonempty_line (line : string) :
  line <> "" -> (String.length line =? 0)%nat = false.
Proof. destruct line; [congruence | reflexivity]. Qed.

End Replies.

(** ** The message loop *)

(** C5, as the code has it. Whether a decoded message is answered depends on
    its method and not on its identifier: a message whose method is
    "initialized" is never answered, with or without an identifier; every
    other decoded message gets exactly one reply, which carries the
    identifier of the message (none when the message has none). *)
Theorem C5_reply_depends_on_method (scan : string -> Outcome json string)
    (W : Type) (S : WeatherService W) (line : string) (req : JSONRPCRequest)
    (w : W) (stdout : list JSONRPCResponse) :
  line <> "" ->
  Unmarshal_request scan line = Ok req ->
  (Method req = "initialized" ->
     exists w', run_line scan line (w, stdout) = (w', stdout))
  /\ (Method req <> "initialized" ->
     exists w' resp,
       run_line scan line (w, stdout) = (w', (stdout ++ [resp])%list)
       /\ RespID resp = ID req).
Proof.
  intros Hline Hreq. unfold run_line.
  rewrite (nonempty_line line Hline), Hreq.
  destruct (exec (handleRequest req) w) as [[a w'] calls] eqn:Hexec.
  apply exec_returns in Hexec.
  apply handleRequest_reply in Hexec as [[Hm ->] | (Hm & resp & -> & Hid & _)].
  - split; [intros _; exists w'; reflexivity | intros Hne; contradiction].
  - split; [intros He; contradiction|].
    intros _. exists w', resp. split; [reflexivity | exact Hid].
Qed.

Lemma C5_witness :
  (Method req_list_no_id = "initialized" ->
     exists w', run_line scan_samples line_list_no_id (mock_ok, []) = (w', []))
  /\ (Method req_list_no_id <> "initialized" ->
     exists w' resp,
       run_line scan_samples line_list_no_id (mock_ok, []) = (w', ([] ++ [resp])%list)
       /\ RespID resp = ID req_list_no_id).
Proof.
  apply (C5_reply_depends_on_method scan_samples mockWeather _ line_list_no_id
           req_list_no_id mock_ok []).
  - discriminate.
  - reflexivity.
Defined.

(** C5 as stated fails both ways: a message without identifier whose method
    is "tools/list" is answered, and a message with identifier 7 whose
    method is "initialized" is not. *)
Lemma C5_counterexample :
  (Unmarshal_request scan_samples line_list_no_id = Ok req_list_no_id
   /\ ID req_list_no_id = VNil
   /\ run scan_samples [line_list_no_id] (mock_ok, [])
      = (mock_ok, [handleToolsList req_list_no_id]))
  /\ (Unmarshal_request scan_samples line_initialized_id = Ok req_initialized_id
      /\ ID req_initialized_id = VFloat64 (Decimal (Pos (D7 Nil)) Nil)
      /\ run scan_samples [line_initialized_id] (mock_ok, []) = (mock_ok, [])).
Proof. repeat split; reflexivity. Qed.

(** C6. A non-empty line that does not decode as a request gets exactly one
    reply: an error with code -32700, message "Parse error" and the nil
    identifier. No other reply has code -32700: a line that decodes is
    answered, if at all, by one reply whose error code is another one, and
    an empty line is not answered. *)
Theorem C6_parse_error_reply (scan : string -> Outcome json string)
    (W : Type) (S : WeatherService W) (line : string)
    (w : W) (stdout : list JSONRPCResponse) :
  (forall e, line <> "" -> Unmarshal_request scan line = Err e ->
     run_line scan line (w, stdout) =
       (w, (stdout ++ [ {| RespJSONRPC := "2.0"; RespID := VNil; RespResult := VNil;
                           RespError := Some {| Code := -32700;
                                                Message := "Parse error";
                                                Data := ErrorText e |} |} ])%list))
  /\ (forall req, Unmarshal_request scan line = Ok req ->
        exists w',
          run_line scan line (w, stdout) = (w', stdout)
          \/ exists resp,
               run_line scan line (w, stdout) = (w', (stdout ++ [resp])%list)
               /\ forall e, RespError resp = Some e -> Code e <> -32700)
  /\ (line = "" -> run_line scan line (w, stdout) = (w, stdout)).
Proof.
  split; [|split].
  - intros e Hline Herr. unfold run_line.
    rewrite (nonempty_line line Hline), Herr. reflexivity.
  - intros req Hreq. unfold run_line.
    destruct (String.length line =? 0)%nat; [exists w; left; reflexivity|].
    rewrite Hreq.
    destruct (exec (handleRequest req) w) as [[a w'] calls] eqn:Hexec.
    apply exec_returns in Hexec. exists w'.
    apply handleRequest_reply in Hexec as [[Hm ->] | (Hm & resp & -> & Hid & Hcode)].
    + left. reflexivity.
    + right. exists resp. split; [reflexivity|].
      intros e He. destruct (Hcode e He) as [-> | ->]; discriminate.
  - intros ->. reflexivity.
Qed.

Lemma C6_witness :
  run_line scan_samples line_garbage (mock_ok, []) =
    (mock_ok,
     ([] ++ [ {| RespJSONRPC := "2.0"; RespID := VNil; RespResult := VNil;
                 RespError := Some {| Code := -32700;
                                      Message := "Parse error";
                                      Data := ErrorText (SyntaxError "invalid character") |} |} ])%list).
Proof.
  apply (proj1 (C6_parse_error_reply scan_samples mockWeather _ line_garbage mock_ok [])).
  - discriminate.
  - reflexivity.
Defined.

(** Over a whole input, the replies are those of the lines, in order. *)
Lemma run_app (scan : string -> Outcome json string) (W : Type)
    (S : WeatherService W) (l1 l2 : list string) (st : W * list JSONRPCResponse) :
  run scan (l1 ++ l2) st = run scan l2 (run scan l1 st).
Proof.
  revert st. induction l1 as [|line l1 IH]; intros st; simpl; [reflexivity | apply IH].
Qed.

(** ** The day count of a forecast *)

Section ForecastDays.

Lemma ParseInt_integer i z :
  ParseInt (Decimal i Nil) = Some z -> z = Z.of_int i /\ minInt64 <= z <= maxInt64.
Proof.
  unfold ParseInt.
  destruct ((minInt64 <=? Z.of_int i) && (Z.of_int i <=? maxInt64)) eqn:Hrange;
    [|discriminate].
  intros [= <-]. apply andb_prop in Hrange as [Hlo Hhi].
  apply Z.leb_le in Hlo. apply Z.leb_le in Hhi. auto.
Qed.

Lemma ParseInt_out_of_range i :
  Z.of_int i < minInt64 \/ maxInt64 < Z.of_int i -> ParseInt (Decimal i Nil) = None.
Proof.
  intros Hout. destruct (ParseInt (Decimal i Nil)) as [z|] eqn:Hp; [|reflexivity].
  apply ParseInt_integer in Hp as [-> Hin]. lia.
Qed.

Lemma json_integer_inv v z :
  json_integer v = Some z -> exists i, v = JNumber (Decimal i Nil) /\ z = Z.of_int i.
Proof.
  destruct v as [| b | [i [] | i f e] | s | l | ms]; try discriminate.
  intros [= <-]. eauto.
Qed.

Lemma json_integer_none_ParseInt n :
  json_integer (JNumber n) = None -> ParseInt n = None.
Proof. destruct n as [i [] | i f e]; simpl; (discriminate || reflexivity). Qed.

(** The [Days] of a decoded input, from the [days] argument. *)
Lemma decoded_days args input :
  Unmarshal forecast_step args {| FLocation := ""; Days := 3 |} = Ok input ->
  (argument "days" args = None -> Days input = 3)
  /\ (forall v z, argument "days" args = Some v -> json_integer v = Some z ->
      Days input = z /\ minInt64 <= z <= maxInt64).
Proof.
  unfold Unmarshal. destruct args as [[| b | n | s | l | ms]|]; try discriminate.
  - intros [= <-]. split; [reflexivity | discriminate].
  - pose proof (forecast_fold_days ms {| FLocation := ""; Days := 3 |} None)
      as [Hnone Hsome].
    pose proof (forecast_fold_bad_days ms {| FLocation := ""; Days := 3 |} None) as Hbad.
    destruct (fold_left forecast_step ms _) as [t [e|]]; [discriminate|].
    intros [= <-]. simpl in *. split; [exact Hnone|].
    intros v z Hv Hz. apply json_integer_inv in Hz as (i & -> & ->).
    destruct (ParseInt (Decimal i Nil)) as [z|] eqn:Hp.
    + rewrite (Hsome _ z Hv Hp). apply ParseInt_integer in Hp as [-> Hin]. auto.
    + exfalso. apply (Hbad _ Hv); [discriminate | | reflexivity].
      intros n [= <-]. exact Hp.
Qed.

(** A [days] that the decoder cannot store makes the routine answer
    "Invalid arguments" without reaching the service. *)
Lemma callGetForecast_bad_days id args v :
  argument "days" args = Some v -> v <> JNull ->
  (forall n, v = JNumber n -> ParseInt n = None) ->
  exists e,
    callGetForecast id args = Ret (paramError id "Invalid arguments" (ErrorText e)).
Proof.
  intros Hv Hnull Hbad. unfold callGetForecast, Unmarshal.
  destruct args as [[| b | n | s | l | ms]|]; try discriminate.
  pose proof (forecast_fold_bad_days ms {| FLocation := ""; Days := 3 |} None v
                Hv Hnull Hbad) as Herr.
  destruct (fold_left forecast_step ms _) as [t [e|]]; [|contradiction].
  exists e. reflexivity.
Qed.

Lemma forecast_step_null_days st k :
  field_is "days" k = true -> forecast_step st (k, JNull) = st.
Proof.
  intros Hd. destruct st as [[loc days] saved]. unfold forecast_step.
  rewrite (field_is_days_not_location k Hd), Hd. reflexivity.
Qed.

End ForecastDays.

(** C2, as the code has it. For a forecast call whose arguments decode and
    whose location is not empty, the service is asked for 3 days when [days]
    is absent, for [days] itself when it is an integer in [1,3], and for 3
    days when it is an integer outside [1,3]; such an integer is then within
    the range of Go's int. An integer literal outside that range is not
    clamped: the call is answered with the protocol error "Invalid
    arguments" (-32602) and the service is not invoked. *)
Theorem C2_forecast_day_count (id : value) (args : RawMessage) :
  (forall input,
      Unmarshal forecast_step args {| FLocation := ""; Days := 3 |} = Ok input ->
      FLocation input <> "" ->
      exists days k,
        callGetForecast id args = Invoke (CallGetForecast (FLocation input) days) k
        /\ (argument "days" args = None -> days = 3)
        /\ (forall v z, argument "days" args = Some v -> json_integer v = Some z ->
              minInt64 <= z <= maxInt64
              /\ (1 <= z <= 3 -> days = z)
              /\ (z < 1 \/ 3 < z -> days = 3)))
  /\ (forall v z, argument "days" args = Some v -> json_integer v = Some z ->
        z < minInt64 \/ maxInt64 < z ->
        exists e,
          callGetForecast id args =
            Ret (paramError id "Invalid arguments" (ErrorText e))).
Proof.
  split.
  - intros input Hdec Hloc.
    rewrite (callGetForecast_invokes id args input Hdec Hloc).
    destruct (decoded_days args input Hdec) as [Hnone Hsome].
    eexists _, _. split; [reflexivity|]. split.
    + intros Habsent. rewrite (Hnone Habsent). reflexivity.
    + intros v z Hv Hz. destruct (Hsome v z Hv Hz) as [-> Hrange].
      split; [exact Hrange|]. split; intros Hz'.
      * destruct (Z.ltb_spec z 1); [lia|]. destruct (Z.gtb_spec z 3); [lia|]. reflexivity.
      * destruct (Z.ltb_spec z 1); [reflexivity|].
        destruct (Z.gtb_spec z 3); [reflexivity | lia].
  - intros v z Hv Hz Hout. apply json_integer_inv in Hz as (i & -> & ->).
    apply (callGetForecast_bad_days id args _ Hv); [discriminate|].
    intros n [= <-]. apply ParseInt_out_of_range, Hout.
Qed.

Lemma C2_witness :
  exists days k,
    callGetForecast id1 (forecast_args "Tokyo" (int_lit 2)) =
      Invoke (CallGetForecast "Tokyo" days) k
    /\ (argument "days" (forecast_args "Tokyo" (int_lit 2)) = None -> days = 3)
    /\ (forall v z, argument "days" (forecast_args "Tokyo" (int_lit 2)) = Some v ->
          json_integer v = Some z ->
          minInt64 <= z <= maxInt64
          /\ (1 <= z <= 3 -> days = z)
          /\ (z < 1 \/ 3 < z -> days = 3)).
Proof.
  apply (proj1 (C2_forecast_day_count id1 (forecast_args "Tokyo" (int_lit 2)))
           {| FLocation := "Tokyo"; Days := 2 |}).
  - reflexivity.
  - discriminate.
Defined.

(** The day counts of the test suite: 2 is kept, an absent [days] and each
    of 0, -1, 5 and 100 give 3. *)
Example forecast_days_of_the_tests :
  exec (callGetForecast id1 (forecast_args "Tokyo" (int_lit 2))) mock_ok
    = (successResponse id1 "forecast data", mock_seen mock_ok "Tokyo" 2,
       [CallGetForecast "Tokyo" 2])
  /\ exec (callGetForecast id1 (Some (JObject [("location", JString "Berlin")]))) mock_ok
    = (successResponse id1 "forecast data", mock_seen mock_ok "Berlin" 3,
       [CallGetForecast "Berlin" 3])
  /\ Forall (fun d =>
       exec (callGetForecast id1 (forecast_args "Paris" (int_lit d))) mock_ok
       = (successResponse id1 "forecast data", mock_seen mock_ok "Paris" 3,
          [CallGetForecast "Paris" 3]))
     [0; -1; 5; 100].
Proof. repeat split; repeat constructor. Qed.

(** C2 as stated fails on an integer that Go's int cannot hold: 2^63 is
    outside [1,3], and the call is rejected instead of being made with 3. *)
Lemma C2_counterexample :
  argument "location" (forecast_args "Paris" (int_lit 9223372036854775808))
    = Some (JString "Paris")
  /\ argument "days" (forecast_args "Paris" (int_lit 9223372036854775808))
    = Some (int_lit 9223372036854775808)
  /\ json_integer (int_lit 9223372036854775808) = Some 9223372036854775808
  /\ callGetForecast id1 (forecast_args "Paris" (int_lit 9223372036854775808))
    = Ret (paramError id1 "Invalid arguments"
             (ErrorText (UnmarshalTypeError (int_lit 9223372036854775808) "days")))
  /\ exec (callGetForecast id1 (forecast_args "Paris" (int_lit 9223372036854775808)))
          mock_ok
    = (paramError id1 "Invalid arguments"
         (ErrorText (UnmarshalTypeError (int_lit 9223372036854775808) "days")),
       mock_ok, []).
Proof. repeat split; vm_compute; reflexivity. Qed.

(** C10, as the code has it. A forecast call whose [days] argument is
    present, is not [null] and is not an integer literal is answered with
    the protocol error "Invalid arguments" (-32602), and the service is not
    invoked. A [null] is not rejected: a [days] member that is [null] is
    skipped, as if it were not in the object. *)
Theorem C10_non_integer_days_rejected (id : value) (args : RawMessage) :
  (forall v, argument "days" args = Some v -> v <> JNull -> json_integer v = None ->
     exists e resp,
       resp = paramError id "Invalid arguments" (ErrorText e)
       /\ callGetForecast id args = Ret resp
       /\ RespError resp = Some {| Code := -32602; Message := "Invalid arguments";
                                   Data := ErrorText e |}
       /\ forall (W : Type) (S : WeatherService W) (w : W),
            exec (callGetForecast id args) w = (resp, w, []))
  /\ (forall ms1 ms2 k, args = Some (JObject (ms1 ++ (k, JNull) :: ms2)) ->
        field_is "days" k = true ->
        callGetForecast id args = callGetForecast id (Some (JObject (ms1 ++ ms2)))).
Proof.
  split.
  - intros v Hv Hnull Hint.
    destruct (callGetForecast_bad_days id args v Hv Hnull) as [e He].
    { intros n ->. apply json_integer_none_ParseInt, Hint. }
    exists e, (paramError id "Invalid arguments" (ErrorText e)).
    rewrite He. repeat split; reflexivity.
  - intros ms1 ms2 k -> Hk. unfold callGetForecast, Unmarshal.
    rewrite !fold_left_app. simpl.
    rewrite (forecast_step_null_days _ k Hk). reflexivity.
Qed.

Lemma C10_witness :
  exists e resp,
    resp = paramError id1 "Invalid arguments" (ErrorText e)
    /\ callGetForecast id1 (forecast_args "Paris" (JString "2")) = Ret resp
    /\ RespError resp = Some {| Code := -32602; Message := "Invalid arguments";
                                Data := ErrorText e |}
    /\ forall (W : Type) (S : WeatherService W) (w : W),
         exec (callGetForecast id1 (forecast_args "Paris" (JString "2"))) w
         = (resp, w, []).
Proof.
  apply (proj1 (C10_non_integer_days_rejected id1 (forecast_args "Paris" (JString "2")))
           (JString "2")).
  - reflexivity.
  - discriminate.
  - reflexivity.
Defined.

(** Fractions, exponents and strings are rejected. *)
Example fractional_days_rejected :
  Forall (fun v =>
    exists e, callGetForecast id1 (forecast_args "Paris" v)
              = Ret (paramError id1 "Invalid arguments" (ErrorText e)))
    [ JNumber (Decimal (Pos (D2 Nil)) (D5 Nil));
      JNumber (Decimal (Pos (D2 Nil)) (D0 Nil));
      JNumber (DecimalExp (Pos (D1 Nil)) Nil (Pos (D0 Nil)));
      JString "2"; JBool true; JArray [int_lit 2] ].
Proof. repeat constructor; eexists; reflexivity. Qed.

(** C10 as stated fails on [null]: it is present and is not an integer, yet
    the call is made, with 3 days. *)
Lemma C10_counterexample :
  argument "days" (forecast_args "Paris" JNull) = Some JNull
  /\ json_integer JNull = None
  /\ exec (callGetForecast id1 (forecast_args "Paris" JNull)) mock_ok
     = (successResponse id1 "forecast data", mock_seen mock_ok "Paris" 3,
        [CallGetForecast "Paris" 3]).
Proof. repeat split; reflexivity. Qed.

(** ** The gateway *)

Section Gateway.

Variable url_Parse : string -> option error.
Variable c : Weather.WeatherClient.

(** Each operation is one [fetch] of a URL under the base URL. *)
Lemma operation_fetches (op : Call) :
  exists u,
    @perform _ (WeatherClient_service url_Parse) op c = (Weather.fetch url_Parse c u, c).
Proof. destruct op; simpl; eexists; reflexivity. Qed.

Lemma fetch_succeeds u result :
  Weather.fetch url_Parse c u = (result, None) <->
  url_Parse u = None
  /\ exists resp,
       Weather.httpClient c (request_for u) = Ok resp
       /\ HTTP.Body resp = (result, None)
       /\ HTTP.StatusCode resp = 200.
Proof.
  unfold Weather.fetch, Weather.NewRequest, request_for, HTTP.ReadAll.
  destruct (url_Parse u) as [cause|].
  { split; [discriminate | intros [[=] _]]. }
  destruct (Weather.httpClient c _) as [resp|cause].
  2:{ split; [discriminate | intros (_ & resp & [=] & _)]. }
  destruct (HTTP.Body resp) as [body [cause|]] eqn:Hbody.
  { split; [discriminate | intros (_ & resp' & [= <-] & Hb & _)]. congruence. }
  destruct (Z.eqb_spec (HTTP.StatusCode resp) HTTP.StatusOK) as [Hs|Hs]; simpl.
  - split.
    + intros [= ->]. split; [reflexivity|]. exists resp. auto.
    + intros (_ & resp' & [= <-] & Hb & _). congruence.
  - split; [discriminate | intros (_ & resp' & [= <-] & _ & Hs')]. contradiction.
Qed.

Lemma fetch_fails u result e :
  Weather.fetch url_Parse c u = (result, Some e) ->
  result = ""
  /\ ((exists cause, url_Parse u = Some cause /\ e = "creating request: " +:+ cause)
      \/ (exists cause,
            Weather.httpClient c (request_for u) = Err cause
            /\ e = "fetching weather: " +:+ cause)
      \/ (exists resp body cause,
            Weather.httpClient c (request_for u) = Ok resp
            /\ HTTP.Body resp = (body, Some cause)
            /\ e = "reading response: " +:+ cause)
      \/ (exists resp body,
            Weather.httpClient c (request_for u) = Ok resp
            /\ HTTP.Body resp = (body, None)
            /\ HTTP.StatusCode resp <> 200
            /\ e = "wttr.in returned status " +:+ itoa (HTTP.StatusCode resp)
                   +:+ ": " +:+ body)).
Proof.
  unfold Weather.fetch, Weather.NewRequest, request_for, HTTP.ReadAll.
  destruct (url_Parse u) as [cause|].
  { intros [= <- <-]. split; [reflexivity|]. left. eauto. }
  destruct (Weather.httpClient c _) as [resp|cause].
  2:{ intros [= <- <-]. split; [reflexivity|]. right. left. eauto. }
  destruct (HTTP.Body resp) as [body [cause|]] eqn:Hbody.
  { intros [= <- <-]. split; [reflexivity|]. right. right. left.
    exists resp, body, cause. auto. }
  destruct (Z.eqb_spec (HTTP.StatusCode resp) HTTP.StatusOK) as [Hs|Hs]; simpl.
  - discriminate.
  - intros [= <- <-]. split; [reflexivity|]. right. right. right.
    exists resp, body. auto.
Qed.

End Gateway.

(** C8, as the code has it. Each of the three operations is one fetch. The
    fetch returns the response body, unchanged, exactly when the URL is
    accepted, the transport delivers a response, its body is read without
    error and its status is 200. In every other case it fails, and the
    failure text carries the cause: the error of the URL parser, of the
    transport or of the read, or the status code and the body when the
    status is not 200 (another 2xx status included). *)
Theorem C8_gateway_outcome (url_Parse : string -> option error)
    (c : Weather.WeatherClient) (op : Call) :
  exists u,
    @perform _ (WeatherClient_service url_Parse) op c = (Weather.fetch url_Parse c u, c)
    /\ (forall body,
          Weather.fetch url_Parse c u = (body, None) <->
          url_Parse u = None
          /\ exists resp,
               Weather.httpClient c (request_for u) = Ok resp
               /\ HTTP.Body resp = (body, None)
               /\ HTTP.StatusCode resp = 200)
    /\ (forall result e,
          Weather.fetch url_Parse c u = (result, Some e) ->
          result = ""
          /\ ((exists cause, url_Parse u = Some cause
                 /\ e = "creating request: " +:+ cause)
              \/ (exists cause,
                    Weather.httpClient c (request_for u) = Err cause
                    /\ e = "fetching weather: " +:+ cause)
              \/ (exists resp body cause,
                    Weather.httpClient c (request_for u) = Ok resp
                    /\ HTTP.Body resp = (body, Some cause)
                    /\ e = "reading response: " +:+ cause)
              \/ (exists resp body,
                    Weather.httpClient c (request_for u) = Ok resp
                    /\ HTTP.Body resp = (body, None)
                    /\ HTTP.StatusCode resp <> 200
                    /\ e = "wttr.in returned status " +:+ itoa (HTTP.StatusCode resp)
                           +:+ ": " +:+ body))).
Proof.
  destruct (operation_fetches url_Parse c op) as [u Hu].
  exists u. split; [exact Hu|]. split.
  - intros body. apply fetch_succeeds.
  - intros result e. apply fetch_fails.
Qed.

(** The tests of the client: a 200 passes the body through, a 404 fails
    with the status and the body in the text, and the location is
    percent-encoded in the path. *)
Example client_tests :
  Weather.GetCurrent url_accepted
      (Weather.NewWeatherClient (transport_answering 200 "London: +20C")) "London"
    = ("London: +20C", None)
  /\ Weather.GetCurrent url_accepted
      (Weather.NewWeatherClient (transport_answering 404 "Unknown location"))
      "NonexistentPlace"
    = ("", Some "wttr.in returned status 404: Unknown location")
  /\ HTTP.PathEscape "New York" = "New%20York"
  /\ Weather.GetForecast url_accepted
      (Weather.NewWeatherClient
         (fun req => Ok {| HTTP.StatusCode := 200; HTTP.Body := (HTTP.URL req, None) |}))
      "New York" 2
    = ("https://wttr.in/New%20York?2&lang=ru", None).
Proof. repeat split; reflexivity. Qed.

(** C8 as stated fails on a 2xx status other than 200: the transport
    delivers a 201 whose body is read without error, and the operation
    fails. *)
Lemma C8_counterexample :
  url_accepted london_url = None
  /\ Weather.httpClient (Weather.NewWeatherClient (transport_answering 201 "created"))
       (request_for london_url)
     = Ok {| HTTP.StatusCode := 201; HTTP.Body := ("created", None) |}
  /\ is_2xx 201 = true
  /\ Weather.GetCurrent url_accepted
       (Weather.NewWeatherClient (transport_answering 201 "created")) "London"
     = Weather.fetch url_accepted
         (Weather.NewWeatherClient (transport_answering 201 "created")) london_url
  /\ Weather.GetCurrent url_accepted
       (Weather.NewWeatherClient (transport_answering 201 "created")) "London"
     = ("", Some "wttr.in returned status 201: created").
Proof. repeat split; reflexivity. Qed.

(** ** The tool list *)

(** C9. A "tools/list" request is answered with a result and no error. The
    result holds exactly three descriptors, named get_current_weather,
    get_forecast and get_weather_detailed, in this order. Each declares
    [location] as a property of type string and as its only required
    property. The descriptor of get_forecast also declares [days], of type
    integer with default 3, minimum 1 and maximum 3; the two others declare
    no [days]. *)
Theorem C9_tools_list (req : JSONRPCRequest) :
  Method req = "tools/list" ->
  exists resp l,
    handleRequest req = Ret (Some resp)
    /\ RespID resp = ID req
    /\ RespError resp = None
    /\ RespResult resp = VMap {[ "tools" := VSlice l ]}
    /\ length l = 3%nat
    /\ List.map (field "name") l =
         [ Some (VString "get_current_weather"); Some (VString "get_forecast");
           Some (VString "get_weather_detailed") ]
    /\ Forall (fun d =>
         path ["inputSchema"; "properties"; "location"; "type"] d = Some (VString "string")
         /\ path ["inputSchema"; "required"] d = Some (VSlice [VString "location"])) l
    /\ (exists d, descriptor "get_forecast" l = Some d
         /\ path ["inputSchema"; "properties"; "days"; "type"] d = Some (VString "integer")
         /\ path ["inputSchema"; "properties"; "days"; "default"] d = Some (VInt 3)
         /\ path ["inputSchema"; "properties"; "days"; "minimum"] d = Some (VInt 1)
         /\ path ["inputSchema"; "properties"; "days"; "maximum"] d = Some (VInt 3))
    /\ (exists d, descriptor "get_current_weather" l = Some d
         /\ path ["inputSchema"; "properties"; "days"] d = None)
    /\ (exists d, descriptor "get_weather_detailed" l = Some d
         /\ path ["inputSchema"; "properties"; "days"] d = None).
Proof.
  intros Hm. exists (handleToolsList req), tools.
  split. { unfold handleRequest. rewrite Hm. reflexivity. }
  split; [reflexivity|]. split; [reflexivity|]. split; [reflexivity|].
  split; [reflexivity|]. split; [vm_compute; reflexivity|].
  split. { repeat constructor; vm_compute; reflexivity. }
  split; [|split]; eexists; (split; [vm_compute; reflexivity|]);
    repeat split; vm_compute; reflexivity.
Qed.

Lemma C9_witness :
  exists resp l,
    handleRequest req_list_no_id = Ret (Some resp)
    /\ RespID resp = ID req_list_no_id
    /\ RespError resp = None
    /\ RespResult resp = VMap {[ "tools" := VSlice l ]}
    /\ length l = 3%nat
    /\ List.map (field "name") l =
         [ Some (VString "get_current_weather"); Some (VString "get_forecast");
           Some (VString "get_weather_detailed") ]
    /\ Forall (fun d =>
         path ["inputSchema"; "properties"; "location"; "type"] d = Some (VString "string")
         /\ path ["inputSchema"; "required"] d = Some (VSlice [VString "location"])) l
    /\ (exists d, descriptor "get_forecast" l = Some d
         /\ path ["inputSchema"; "properties"; "days"; "type"] d = Some (VString "integer")
         /\ path ["inputSchema"; "properties"; "days"; "default"] d = Some (VInt 3)
         /\ path ["inputSchema"; "properties"; "days"; "minimum"] d = Some (VInt 1)
         /\ path ["inputSchema"; "properties"; "days"; "maximum"] d = Some (VInt 3))
    /\ (exists d, descriptor "get_current_weather" l = Some d
         /\ path ["inputSchema"; "properties"; "days"] d = None)
    /\ (exists d, descriptor "get_weather_detailed" l = Some d
         /\ path ["inputSchema"; "properties"; "days"] d = None).
Proof.
  apply (C9_tools_list req_list_no_id). reflexivity.
Defined.

(** * Further properties *)

(** ** The shape of the handlers *)

Section Shapes.

Lemma clamped_days_bounds (d : Z) :
  1 <= (if (d <? 1) || (d >? 3) then 3 else d) <= 3.
Proof.
  destruct (Z.ltb_spec d 1); simpl; [lia|].
  destruct (Z.gtb_spec d 3); lia.
Qed.

Lemma decoded_location_current args input :
  Unmarshal location_step args {| Location := "" |} = Ok input ->
  decoded_location toolGetCurrent args = Some (Location input).
Proof. intros Hdec. unfold decoded_location. simpl. rewrite Hdec. reflexivity. Qed.

Lemma decoded_location_detailed args input :
  Unmarshal location_step args {| Location := "" |} = Ok input ->
  decoded_location toolGetDetailed args = Some (Location input).
Proof. intros Hdec. unfold decoded_location. simpl. rewrite Hdec. reflexivity. Qed.

Lemma decoded_location_forecast args input :
  Unmarshal forecast_step args {| FLocation := ""; Days := 3 |} = Ok input ->
  decoded_location toolGetForecast args = Some (FLocation input).
Proof. intros Hdec. unfold decoded_location. simpl. rewrite Hdec. reflexivity. Qed.

(** A tool routine either answers "invalid params" at once, or invokes its
    operation with a non-empty location and answers with [tool_reply]. *)
Lemma tool_routine_cases (name : string) (id : value) (args : RawMessage)
    (p : Prog JSONRPCResponse) :
  (name = toolGetCurrent /\ p = callGetCurrent id args)
  \/ (name = toolGetForecast /\ p = callGetForecast id args)
  \/ (name = toolGetDetailed /\ p = callGetDetailed id args) ->
  (exists message data, p = Ret (error_reply id (-32602) message data))
  \/ (exists c k,
        p = Invoke c k
        /\ call_tool c = name
        /\ decoded_location name args = Some (call_location c)
        /\ call_location c <> ""
        /\ (forall loc d, c = CallGetForecast loc d -> 1 <= d <= 3)
        /\ forall r, k r = Ret (tool_reply id r)).
Proof.
  intros [[-> ->] | [[-> ->] | [-> ->]]].
  - unfold callGetCurrent.
    destruct (Unmarshal location_step args _) as [input|e] eqn:Hdec;
      [|left; eexists _, _; reflexivity].
    destruct (String.eqb (Location input) "") eqn:Hloc;
      [left; eexists _, _; reflexivity|].
    apply String.eqb_neq in Hloc. right.
    eexists (CallGetCurrent (Location input)), _. split; [reflexivity|].
    split; [reflexivity|]. split; [exact (decoded_location_current args input Hdec)|].
    split; [exact Hloc|]. split; [discriminate|].
    intros [result [e|]]; reflexivity.
  - unfold callGetForecast.
    destruct (Unmarshal forecast_step args _) as [input|e] eqn:Hdec;
      [|left; eexists _, _; reflexivity].
    destruct (String.eqb (FLocation input) "") eqn:Hloc;
      [left; eexists _, _; reflexivity|].
    apply String.eqb_neq in Hloc. right.
    eexists (CallGetForecast (FLocation input) _), _. split; [reflexivity|].
    split; [reflexivity|]. split; [exact (decoded_location_forecast args input Hdec)|].
    split; [exact Hloc|]. split.
    + intros loc d [= _ <-]. apply clamped_days_bounds.
    + intros [result [e|]]; reflexivity.
  - unfold callGetDetailed.
    destruct (Unmarshal location_step args _) as [input|e] eqn:Hdec;
      [|left; eexists _, _; reflexivity].
    destruct (String.eqb (Location input) "") eqn:Hloc;
      [left; eexists _, _; reflexivity|].
    apply String.eqb_neq in Hloc. right.
    eexists (CallGetDetailed (Location input)), _. split; [reflexivity|].
    split; [reflexivity|]. split; [exact (decoded_location_detailed args input Hdec)|].
    split; [exact Hloc|]. split; [discriminate|].
    intros [result [e|]]; reflexivity.
Qed.

Lemma handleToolsCall_cases req :
  (exists message data,
      handleToolsCall req = Ret (error_reply (ID req) (-32602) message data))
  \/ (exists params c k,
        Unmarshal params_step (Params req) {| Name := ""; Arguments := None |} = Ok params
        /\ handleToolsCall req = Invoke c k
        /\ call_tool c = Name params
        /\ decoded_location (Name params) (Arguments params) = Some (call_location c)
        /\ call_location c <> ""
        /\ (forall loc d, c = CallGetForecast loc d -> 1 <= d <= 3)
        /\ forall r, k r = Ret (tool_reply (ID req) r)).
Proof.
  unfold handleToolsCall.
  destruct (Unmarshal params_step (Params req) _) as [params|e] eqn:Hp;
    [|left; eexists _, _; reflexivity].
  assert (forall name p,
             (name = toolGetCurrent /\ p = callGetCurrent (ID req) (Arguments params))
             \/ (name = toolGetForecast /\ p = callGetForecast (ID req) (Arguments params))
             \/ (name = toolGetDetailed /\ p = callGetDetailed (ID req) (Arguments params)) ->
             Name params = name ->
             (exists message data, p = Ret (error_reply (ID req) (-32602) message data))
             \/ (exists params' c k,
                   @Ok CallParams UnmarshalError params = Ok params'
                   /\ p = Invoke c k
                   /\ call_tool c = Name params'
                   /\ decoded_location (Name params') (Arguments params')
                      = Some (call_location c)
                   /\ call_location c <> ""
                   /\ (forall loc d, c = CallGetForecast loc d -> 1 <= d <= 3)
                   /\ forall r, k r = Ret (tool_reply (ID req) r))) as Hroutine.
  { intros name p Hcase Hname.
    destruct (tool_routine_cases name (ID req) (Arguments params) p Hcase)
      as [Herr | (c & k & Hk & Htool & Hloc & Hne & Hdays & Hreply)]; [left; exact Herr|].
    right. exists params, c, k. rewrite Hname. auto 10. }
  destruct (String.eqb (Name params) toolGetCurrent) eqn:H1.
  { apply String.eqb_eq in H1. apply (Hroutine toolGetCurrent); auto. }
  destruct (String.eqb (Name params) toolGetForecast) eqn:H2.
  { apply String.eqb_eq in H2. apply (Hroutine toolGetForecast); auto. }
  destruct (String.eqb (Name params) toolGetDetailed) eqn:H3.
  { apply String.eqb_eq in H3. apply (Hroutine toolGetDetailed); auto. }
  left. eexists _, _. reflexivity.
Qed.

(** The five outcomes of [handleRequest]. *)
Lemma handleRequest_cases req :
  (Method req = "initialized" /\ handleRequest req = Ret None)
  \/ (Method req = "initialize" /\ handleRequest req = Ret (Some (handleInitialize req)))
  \/ (Method req = "tools/list" /\ handleRequest req = Ret (Some (handleToolsList req)))
  \/ (Method req <> "initialized"
      /\ exists code message data,
           (code = -32601 \/ code = -32602)
           /\ handleRequest req = Ret (Some (error_reply (ID req) code message data)))
  \/ (Method req = "tools/call"
      /\ exists params c k,
           Unmarshal params_step (Params req) {| Name := ""; Arguments := None |} = Ok params
           /\ handleRequest req = Invoke c k
           /\ call_tool c = Name params
           /\ decoded_location (Name params) (Arguments params) = Some (call_location c)
           /\ call_location c <> ""
           /\ (forall loc d, c = CallGetForecast loc d -> 1 <= d <= 3)
           /\ forall r, k r = Ret (Some (tool_reply (ID req) r))).
Proof.
  unfold handleRequest.
  destruct (String.eqb (Method req) "initialize") eqn:H1.
  { apply String.eqb_eq in H1. right. left. auto. }
  destruct (String.eqb (Method req) "initialized") eqn:H2.
  { apply String.eqb_eq in H2. left. auto. }
  apply String.eqb_neq in H2.
  destruct (String.eqb (Method req) "tools/list") eqn:H3.
  { apply String.eqb_eq in H3. right. right. left. auto. }
  destruct (String.eqb (Method req) "tools/call") eqn:H4.
  - apply String.eqb_eq in H4.
    destruct (handleToolsCall_cases req)
      as [(message & data & Hret)
         | (params & c & k & Hp & Hk & Htool & Hloc & Hne & Hdays & Hreply)].
    + right. right. right. left. split; [exact H2|].
      exists (-32602), message, data. split; [right; reflexivity|].
      rewrite Hret. reflexivity.
    + right. right. right. right. split; [exact H4|].
      exists params, c, (fun r => bind (k r) (fun resp => Ret (Some resp))).
      split; [exact Hp|]. split; [rewrite Hk; reflexivity|].
      split; [exact Htool|]. split; [exact Hloc|].
      split; [exact Hne|]. split; [exact Hdays|].
      intros r. rewrite Hreply. reflexivity.
  - right. right. right. left. split; [exact H2|].
    exists (-32601), "Method not found", NoData.
    split; [left; reflexivity | reflexivity].
Qed.

Lemma exec_Ret {W : Type} `{WeatherService W} {A : Type} (p : Prog A) (a : A) (w : W) :
  p = Ret a -> exec p w = (a, w, []).
Proof. intros ->. reflexivity. Qed.

Lemma exec_Invoke {W : Type} `{WeatherService W} {A : Type} (p : Prog A)
    (c : Call) (k : string * option error -> Prog A) (f : string * option error -> A)
    (w : W) :
  p = Invoke c k -> (forall r, k r = Ret (f r)) ->
  exec p w = (f (fst (perform c w)), snd (perform c w), [c]).
Proof.
  intros -> Hk. simpl. destruct (perform c w) as [r w1]. rewrite Hk. reflexivity.
Qed.

Lemma invokes_Invoke {A : Type} (c : Call) (k : string * option error -> Prog A)
    (f : string * option error -> A) (c' : Call) :
  (forall r, k r = Ret (f r)) -> invokes (Invoke c k) c' -> c' = c.
Proof.
  intros Hk Hinv. inversion Hinv as [c0 k0 | c0 k0 r c0' Hlater]; subst; [reflexivity|].
  rewrite Hk in Hlater. inversion Hlater.
Qed.

End Shapes.

(** ** Replies and the use of the service *)

(** X1. Every reply that [handleRequest] produces is a well-formed outbound
    message: its version tag is "2.0", it echoes the identifier of the
    request, and it carries either a result and no error object, or an error
    object and no result. *)
Theorem reply_is_well_formed (W : Type) (S : WeatherService W)
    (req : JSONRPCRequest) (w w' : W) (resp : JSONRPCResponse) (calls : list Call) :
  exec (handleRequest req) w = (Some resp, w', calls) ->
  RespJSONRPC resp = "2.0"
  /\ RespID resp = ID req
  /\ ((RespError resp = None /\ RespResult resp <> VNil)
      \/ (RespError resp <> None /\ RespResult resp = VNil)).
Proof.
  intros Hexec.
  destruct (handleRequest_cases req)
    as [[_ Hret] | [[_ Hret] | [[_ Hret] | [[_ (code & message & data & _ & Hret)]
       | [_ (params & c & k & _ & Hk & _ & _ & _ & _ & Hreply)]]]]].
  - rewrite (exec_Ret _ _ w Hret) in Hexec. discriminate.
  - rewrite (exec_Ret _ _ w Hret) in Hexec. injection Hexec as <- _ _.
    repeat split. left. split; [reflexivity | discriminate].
  - rewrite (exec_Ret _ _ w Hret) in Hexec. injection Hexec as <- _ _.
    repeat split. left. split; [reflexivity | discriminate].
  - rewrite (exec_Ret _ _ w Hret) in Hexec. injection Hexec as <- _ _.
    repeat split. right. split; [discriminate | reflexivity].
  - rewrite (exec_Invoke _ c k (fun r => Some (tool_reply (ID req) r)) w Hk Hreply)
      in Hexec.
    injection Hexec as <- _ _.
    destruct (fst (perform c w)) as [result [e|]]; repeat split;
      left; (split; [reflexivity | discriminate]).
Qed.

Lemma reply_is_well_formed_witness :
  RespJSONRPC (successResponse id1 "London: clear 20C") = "2.0"
  /\ RespID (successResponse id1 "London: clear 20C") = ID req_london
  /\ ((RespError (successResponse id1 "London: clear 20C") = None
       /\ RespResult (successResponse id1 "London: clear 20C") <> VNil)
      \/ (RespError (successResponse id1 "London: clear 20C") <> None
          /\ RespResult (successResponse id1 "London: clear 20C") = VNil)).
Proof.
  apply (reply_is_well_formed mockWeather _ req_london mock_ok
           (mock_seen mock_ok "London" 0) (successResponse id1 "London: clear 20C")
           [CallGetCurrent "London"]).
  reflexivity.
Defined.

(** X2. Handling one message invokes the service at most once, and only for
    a "tools/call" request. When the service is not invoked its state is
    left as it was; when it is invoked the reply has no error object. So a
    reply that carries an error object is always produced without touching
    the service. *)
Theorem service_is_used_at_most_once (W : Type) (S : WeatherService W)
    (req : JSONRPCRequest) (w w' : W) (a : option JSONRPCResponse)
    (calls : list Call) :
  exec (handleRequest req) w = (a, w', calls) ->
  ((calls = [] /\ w' = w)
   \/ (exists c resp,
         calls = [c] /\ Method req = "tools/call" /\ w' = snd (perform c w)
         /\ a = Some resp /\ RespError resp = None))
  /\ (forall resp, a = Some resp -> RespError resp <> None -> calls = [] /\ w' = w).
Proof.
  intros Hexec.
  assert ((calls = [] /\ w' = w)
          \/ (exists c resp,
                calls = [c] /\ Method req = "tools/call" /\ w' = snd (perform c w)
                /\ a = Some resp /\ RespError resp = None)) as Hcases.
  { destruct (handleRequest_cases req)
      as [[_ Hret] | [[_ Hret] | [[_ Hret] | [[_ (code & message & data & _ & Hret)]
         | [Hm (params & c & k & _ & Hk & _ & _ & _ & _ & Hreply)]]]]];
      try (rewrite (exec_Ret _ _ w Hret) in Hexec; injection Hexec as _ <- <-;
           left; split; reflexivity).
    rewrite (exec_Invoke _ c k (fun r => Some (tool_reply (ID req) r)) w Hk Hreply)
      in Hexec.
    injection Hexec as <- <- <-. right.
    exists c, (tool_reply (ID req) (fst (perform c w))).
    repeat split; [exact Hm|].
    destruct (fst (perform c w)) as [result [e|]]; reflexivity. }
  split; [exact Hcases|].
  intros resp -> Herr.
  destruct Hcases as [Hnone | (c & resp' & _ & _ & _ & [= ->] & Hok)];
    [exact Hnone | contradiction].
Qed.

Lemma service_is_used_at_most_once_witness :
  (([CallGetCurrent "Nowhere"] = [] /\ mock_seen mock_failing "Nowhere" 0 = mock_failing)
   \/ (exists c resp,
         [CallGetCurrent "Nowhere"] = [c] /\ Method req_nowhere = "tools/call"
         /\ mock_seen mock_failing "Nowhere" 0 = snd (perform c mock_failing)
         /\ Some (errorResponse id1 "network timeout") = Some resp
         /\ RespError resp = None))
  /\ (forall resp, Some (errorResponse id1 "network timeout") = Some resp ->
        RespError resp <> None ->
        [CallGetCurrent "Nowhere"] = [] /\ mock_seen mock_failing "Nowhere" 0 = mock_failing).
Proof.
  apply (service_is_used_at_most_once mockWeather _ req_nowhere mock_failing).
  reflexivity.
Defined.

(** X3. When the service was invoked, the reply tells success from failure
    by the [isError] member alone: if the operation returned an error the
    reply is the error-flagged result with [isError] set to [true]; if it
    returned a body the reply is the plain result and has no [isError]
    member at all. *)
Theorem isError_marks_failure (W : Type) (S : WeatherService W)
    (req : JSONRPCRequest) (w w' : W) (resp : JSONRPCResponse) (c : Call) :
  exec (handleRequest req) w = (Some resp, w', [c]) ->
  exists result failure,
    perform c w = ((result, failure), w')
    /\ match failure with
       | Some e => resp = errorResponse (ID req) e
                   /\ field "isError" (RespResult resp) = Some (VBool true)
       | None => resp = successResponse (ID req) result
                 /\ field "isError" (RespResult resp) = None
       end.
Proof.
  intros Hexec.
  destruct (handleRequest_cases req)
    as [[_ Hret] | [[_ Hret] | [[_ Hret] | [[_ (code & message & data & _ & Hret)]
       | [_ (params & c' & k & _ & Hk & _ & _ & _ & _ & Hreply)]]]]];
    try (rewrite (exec_Ret _ _ w Hret) in Hexec; discriminate).
  rewrite (exec_Invoke _ c' k (fun r => Some (tool_reply (ID req) r)) w Hk Hreply)
    in Hexec.
  injection Hexec as <- <- <-.
  destruct (perform c' w) as [[result failure] w1] eqn:Hperf. simpl.
  exists result, failure. split; [reflexivity|].
  destruct failure as [e|]; split; reflexivity.
Qed.

Lemma isError_marks_failure_witness :
  exists result failure,
    perform (CallGetCurrent "London") mock_ok
      = ((result, failure), mock_seen mock_ok "London" 0)
    /\ match failure with
       | Some e => successResponse id1 "London: clear 20C" = errorResponse (ID req_london) e
                   /\ field "isError" (RespResult (successResponse id1 "London: clear 20C"))
                      = Some (VBool true)
       | None => successResponse id1 "London: clear 20C"
                   = successResponse (ID req_london) result
                 /\ field "isError" (RespResult (successResponse id1 "London: clear 20C"))
                    = None
       end.
Proof.
  apply (isError_marks_failure mockWeather _ req_london mock_ok
           (mock_seen mock_ok "London" 0) (successResponse id1 "London: clear 20C")
           (CallGetCurrent "London")).
  reflexivity.
Defined.

(** X4. The service is only ever asked validated questions. Whatever
    operation [handleRequest] can invoke, the request is a "tools/call"
    whose params decode, the operation is the one of the tool named there,
    its location is the decoded one and is not empty, and the day count of
    a forecast lies in [1,3]. *)
Theorem invoked_operation_is_validated (req : JSONRPCRequest) (c : Call) :
  invokes (handleRequest req) c ->
  Method req = "tools/call"
  /\ known_tool (call_tool c)
  /\ call_location c <> ""
  /\ (forall loc d, c = CallGetForecast loc d -> 1 <= d <= 3)
  /\ exists params,
       Unmarshal params_step (Params req) {| Name := ""; Arguments := None |} = Ok params
       /\ Name params = call_tool c
       /\ decoded_location (Name params) (Arguments params) = Some (call_location c).
Proof.
  intros Hinv.
  destruct (handleRequest_cases req)
    as [[_ Hret] | [[_ Hret] | [[_ Hret] | [[_ (code & message & data & _ & Hret)]
       | [Hm (params & c' & k & Hp & Hk & Htool & Hloc & Hne & Hdays & Hreply)]]]]];
    try (rewrite Hret in Hinv; inversion Hinv).
  rewrite Hk in Hinv.
  apply (invokes_Invoke c' k (fun r => Some (tool_reply (ID req) r)) c Hreply) in Hinv.
  subst c'. split; [exact Hm|]. split.
  { unfold known_tool. destruct c; simpl; auto. }
  split; [exact Hne|]. split; [exact Hdays|].
  exists params. auto.
Qed.

Lemma invoked_operation_is_validated_witness :
  Method req_forecast_tokyo = "tools/call"
  /\ known_tool (call_tool (CallGetForecast "Tokyo" 2))
  /\ call_location (CallGetForecast "Tokyo" 2) <> ""
  /\ (forall loc d, CallGetForecast "Tokyo" 2 = CallGetForecast loc d -> 1 <= d <= 3)
  /\ exists params,
       Unmarshal params_step (Params req_forecast_tokyo)
         {| Name := ""; Arguments := None |} = Ok params
       /\ Name params = call_tool (CallGetForecast "Tokyo" 2)
       /\ decoded_location (Name params) (Arguments params)
          = Some (call_location (CallGetForecast "Tokyo" 2)).
Proof.
  apply (invoked_operation_is_validated req_forecast_tokyo (CallGetForecast "Tokyo" 2)).
  apply invokes_here.
Defined.

(** X5. A request of method "initialize" always succeeds, whatever its
    params: the reply echoes the identifier, has no error object, and
    announces protocol version 2024-11-05, the server wttr-weather 1.0.0
    and an empty tools capability; the service is not invoked. *)
Theorem initialize_always_succeeds (req : JSONRPCRequest) :
  Method req = "initialize" ->
  exists resp,
    handleRequest req = Ret (Some resp)
    /\ RespID resp = ID req
    /\ RespError resp = None
    /\ path ["protocolVersion"] (RespResult resp) = Some (VString "2024-11-05")
    /\ path ["serverInfo"; "name"] (RespResult resp) = Some (VString "wttr-weather")
    /\ path ["serverInfo"; "version"] (RespResult resp) = Some (VString "1.0.0")
    /\ path ["capabilities"; "tools"] (RespResult resp) = Some (VMap ∅)
    /\ forall (W : Type) (S : WeatherService W) (w : W),
         exec (handleRequest req) w = (Some resp, w, []).
Proof.
  intros Hm. exists (handleInitialize req).
  assert (handleRequest req = Ret (Some (handleInitialize req))) as Hret.
  { unfold handleRequest. rewrite Hm. reflexivity. }
  split; [exact Hret|]. split; [reflexivity|]. split; [reflexivity|].
  split; [vm_compute; reflexivity|]. split; [vm_compute; reflexivity|].
  split; [vm_compute; reflexivity|]. split; [vm_compute; reflexivity|].
  intros W S w. rewrite Hret. reflexivity.
Qed.

Lemma initialize_always_succeeds_witness :
  exists resp,
    handleRequest req_initialize = Ret (Some resp)
    /\ RespID resp = ID req_initialize
    /\ RespError resp = None
    /\ path ["protocolVersion"] (RespResult resp) = Some (VString "2024-11-05")
    /\ path ["serverInfo"; "name"] (RespResult resp) = Some (VString "wttr-weather")
    /\ path ["serverInfo"; "version"] (RespResult resp) = Some (VString "1.0.0")
    /\ path ["capabilities"; "tools"] (RespResult resp) = Some (VMap ∅)
    /\ forall (W : Type) (S : WeatherService W) (w : W),
         exec (handleRequest req_initialize) w = (Some resp, w, []).
Proof.
  apply (initialize_always_succeeds req_initialize). reflexivity.
Defined.

(** ** Decoding the params and the arguments *)

Section DecodingEdges.

Lemma store_string_rejects field v cur saved :
  v <> JNull -> json_string v = None ->
  snd (store_string field v cur saved) <> None.
Proof.
  intros Hnull Hstr.
  destruct v as [| b | n | s | l | ms];
    [congruence | | | discriminate Hstr | | ];
    destruct saved; simpl; discriminate.
Qed.

Lemma params_step_keeps_error t e kv :
  snd (params_step (t, Some e) kv) = Some e.
Proof.
  destruct kv as [k v]. unfold params_step.
  destruct (field_is "name" k).
  - destruct v; reflexivity.
  - destruct (field_is "arguments" k); reflexivity.
Qed.

Lemma params_fold_bad_name ms init s0 v :
  member "name" ms = Some v -> v <> JNull -> json_string v = None ->
  snd (fold_left params_step ms (init, s0)) <> None.
Proof.
  intros Hm Hnull Hstr. revert Hm.
  induction ms as [|[k v'] ms IH] using rev_ind; simpl; [discriminate|].
  rewrite fold_left_app, member_snoc. simpl.
  destruct (fold_left params_step ms (init, s0)) as [t saved].
  simpl in IH.
  destruct (field_is "name" k) eqn:Hk.
  - intros [= ->]. unfold params_step. rewrite Hk.
    pose proof (store_string_rejects "name" v (Name t) saved Hnull Hstr) as Hrej.
    destruct (store_string "name" v (Name t) saved) as [s' saved']. exact Hrej.
  - intros Hm. specialize (IH Hm).
    destruct saved as [e|]; [|congruence].
    rewrite params_step_keeps_error. discriminate.
Qed.

Lemma location_fold_bad ms init s0 v :
  member "location" ms = Some v -> v <> JNull -> json_string v = None ->
  snd (fold_left location_step ms (init, s0)) <> None.
Proof.
  intros Hm Hnull Hstr. revert Hm.
  induction ms as [|[k v'] ms IH] using rev_ind; simpl; [discriminate|].
  rewrite fold_left_app, member_snoc. simpl.
  destruct (fold_left location_step ms (init, s0)) as [t saved].
  simpl in IH.
  destruct (field_is "location" k) eqn:Hk.
  - intros [= ->]. unfold location_step. rewrite Hk.
    pose proof (store_string_rejects "location" v (Location t) saved Hnull Hstr) as Hrej.
    destruct (store_string "location" v (Location t) saved) as [s' saved']. exact Hrej.
  - intros Hm. specialize (IH Hm).
    destruct saved as [e|]; [|congruence].
    rewrite location_step_keeps_error. discriminate.
Qed.

Lemma forecast_fold_bad_location ms init s0 v :
  member "location" ms = Some v -> v <> JNull -> json_string v = None ->
  snd (fold_left forecast_step ms (init, s0)) <> None.
Proof.
  intros Hm Hnull Hstr. revert Hm.
  induction ms as [|[k v'] ms IH] using rev_ind; simpl; [discriminate|].
  rewrite fold_left_app, member_snoc. simpl.
  destruct (fold_left forecast_step ms (init, s0)) as [t saved].
  simpl in IH.
  destruct (field_is "location" k) eqn:Hk.
  - intros [= ->]. unfold forecast_step. rewrite Hk.
    pose proof (store_string_rejects "location" v (FLocation t) saved Hnull Hstr) as Hrej.
    destruct (store_string "location" v (FLocation t) saved) as [s' saved']. exact Hrej.
  - intros Hm. specialize (IH Hm).
    destruct saved as [e|]; [|congruence].
    rewrite forecast_step_keeps_error. discriminate.
Qed.

(** A member that selects no field leaves the decoding as it is. *)
Lemma location_step_unmatched st k v :
  field_is "location" k = false -> location_step st (k, v) = st.
Proof. intros Hk. destruct st as [t saved]. unfold location_step. rewrite Hk. reflexivity. Qed.

Lemma forecast_step_unmatched st k v :
  field_is "location" k = false -> field_is "days" k = false ->
  forecast_step st (k, v) = st.
Proof.
  intros Hl Hd. destruct st as [t saved]. unfold forecast_step. rewrite Hl, Hd. reflexivity.
Qed.

Lemma location_fold_unmatched ms st :
  Forall (fun kv => field_is "location" (fst kv) = false) ms ->
  fold_left location_step ms st = st.
Proof.
  intros Hall. revert st. induction Hall as [|[k v] ms Hk _ IH]; intros st; simpl.
  - reflexivity.
  - rewrite (location_step_unmatched st k v Hk). apply IH.
Qed.

Lemma forecast_fold_unmatched ms st :
  Forall (fun kv => field_is "location" (fst kv) = false
                    /\ field_is "days" (fst kv) = false) ms ->
  fold_left forecast_step ms st = st.
Proof.
  intros Hall. revert st. induction Hall as [|[k v] ms [Hl Hd] _ IH]; intros st; simpl.
  - reflexivity.
  - rewrite (forecast_step_unmatched st k v Hl Hd). apply IH.
Qed.

(** The decoded location is the string that the arguments give. *)
Lemma decoded_location_is_argument name args loc s :
  decoded_location name args = Some loc ->
  argument "location" args = Some (JString s) ->
  loc = s.
Proof.
  unfold decoded_location, Unmarshal, argument.
  destruct args as [[| b | n | s' | l | ms]|]; try discriminate.
  intros Hdec Harg.
  destruct (String.eqb name toolGetForecast).
  - pose proof (forecast_fold_location ms {| FLocation := ""; Days := 3 |} None)
      as [_ Hsome].
    destruct (fold_left forecast_step ms _) as [t [e|]]; [discriminate|].
    injection Hdec as <-. exact (Hsome s Harg).
  - destruct (String.eqb name toolGetCurrent || String.eqb name toolGetDetailed);
      [|discriminate].
    pose proof (location_fold ms {| Location := "" |} None) as [_ Hsome].
    destruct (fold_left location_step ms _) as [t [e|]]; [discriminate|].
    injection Hdec as <-. exact (Hsome s Harg).
Qed.

Lemma known_tool_routine (req : JSONRPCRequest) (params : CallParams) :
  Unmarshal params_step (Params req) {| Name := ""; Arguments := None |} = Ok params ->
  known_tool (Name params) ->
  (Name params = toolGetCurrent
   /\ handleToolsCall req = callGetCurrent (ID req) (Arguments params))
  \/ (Name params = toolGetForecast
      /\ handleToolsCall req = callGetForecast (ID req) (Arguments params))
  \/ (Name params = toolGetDetailed
      /\ handleToolsCall req = callGetDetailed (ID req) (Arguments params)).
Proof.
  intros Hp Hknown. unfold handleToolsCall. rewrite Hp.
  destruct Hknown as [H | [H | H]]; rewrite H; simpl; auto.
Qed.

End DecodingEdges.

(** X6. A "tools/call" request whose params are missing, or are a JSON
    value other than null or an object, or whose [name] is neither a string
    nor null, is answered with the protocol error -32602 "Invalid params";
    the service is not invoked. *)
Theorem invalid_params_payload (req : JSONRPCRequest) :
  Method req = "tools/call" ->
  Params req = None
  \/ (exists v, Params req = Some v /\ v <> JNull /\ forall ms, v <> JObject ms)
  \/ (exists v, argument "name" (Params req) = Some v /\ v <> JNull
                /\ json_string v = None) ->
  exists e,
    handleRequest req
      = Ret (Some (error_reply (ID req) (-32602) "Invalid params" (ErrorText e)))
    /\ forall (W : Type) (S : WeatherService W) (w : W),
         exec (handleRequest req) w
         = (Some (error_reply (ID req) (-32602) "Invalid params" (ErrorText e)), w, []).
Proof.
  intros Hm Hbad.
  assert (exists e,
             Unmarshal params_step (Params req) {| Name := ""; Arguments := None |}
             = Err e) as [e He].
  { unfold Unmarshal.
    destruct Hbad as [-> | [(v & -> & Hnull & Hobj) | (v & Harg & Hnull & Hstr)]].
    - eauto.
    - destruct v as [| b | n | s | l | ms]; eauto; [congruence|].
      exfalso. exact (Hobj ms eq_refl).
    - unfold argument in Harg.
      destruct (Params req) as [[| b | n | s | l | ms]|]; try discriminate.
      pose proof (params_fold_bad_name ms {| Name := ""; Arguments := None |} None v
                    Harg Hnull Hstr) as Herr.
      destruct (fold_left params_step ms _) as [t [e|]]; [eauto | contradiction]. }
  exists e.
  assert (handleRequest req
          = Ret (Some (error_reply (ID req) (-32602) "Invalid params" (ErrorText e))))
    as Hret.
  { rewrite (handleRequest_tools_call req Hm). unfold handleToolsCall. rewrite He.
    reflexivity. }
  split; [exact Hret|]. intros W S w. rewrite Hret. reflexivity.
Qed.

Lemma invalid_params_payload_witness :
  exists e,
    handleRequest req_no_params
      = Ret (Some (error_reply (ID req_no_params) (-32602) "Invalid params" (ErrorText e)))
    /\ forall (W : Type) (S : WeatherService W) (w : W),
         exec (handleRequest req_no_params) w
         = (Some (error_reply (ID req_no_params) (-32602) "Invalid params" (ErrorText e)),
            w, []).
Proof.
  apply (invalid_params_payload req_no_params).
  - reflexivity.
  - left. reflexivity.
Defined.

(** X7. For each of the three tools, a [location] argument that is present
    but is neither a string nor null (a number, a boolean, an array, an
    object) is answered with the protocol error -32602 "Invalid arguments",
    not with "location is required"; the service is not invoked. *)
Theorem wrong_typed_location_rejected (req : JSONRPCRequest) (params : CallParams)
    (v : json) :
  Method req = "tools/call" ->
  Unmarshal params_step (Params req) {| Name := ""; Arguments := None |} = Ok params ->
  known_tool (Name params) ->
  argument "location" (Arguments params) = Some v ->
  v <> JNull ->
  json_string v = None ->
  exists e,
    handleRequest req
      = Ret (Some (paramError (ID req) "Invalid arguments" (ErrorText e))).
Proof.
  intros Hm Hp Hknown Harg Hnull Hstr.
  rewrite (handleRequest_tools_call req Hm).
  unfold argument in Harg.
  destruct (Arguments params) as [[| b | n | s | l | ms]|] eqn:Hargs; try discriminate.
  destruct (known_tool_routine req params Hp Hknown)
    as [[_ ->] | [[_ ->] | [_ ->]]]; rewrite Hargs.
  - unfold callGetCurrent, Unmarshal.
    pose proof (location_fold_bad ms {| Location := "" |} None v Harg Hnull Hstr) as Herr.
    destruct (fold_left location_step ms _) as [t [e|]]; [|contradiction].
    exists e. reflexivity.
  - unfold callGetForecast, Unmarshal.
    pose proof (forecast_fold_bad_location ms {| FLocation := ""; Days := 3 |} None v
                  Harg Hnull Hstr) as Herr.
    destruct (fold_left forecast_step ms _) as [t [e|]]; [|contradiction].
    exists e. reflexivity.
  - unfold callGetDetailed, Unmarshal.
    pose proof (location_fold_bad ms {| Location := "" |} None v Harg Hnull Hstr) as Herr.
    destruct (fold_left location_step ms _) as [t [e|]]; [|contradiction].
    exists e. reflexivity.
Qed.

Lemma wrong_typed_location_rejected_witness :
  exists e,
    handleRequest req_numeric_location
      = Ret (Some (paramError (ID req_numeric_location) "Invalid arguments" (ErrorText e))).
Proof.
  apply (wrong_typed_location_rejected req_numeric_location
           {| Name := toolGetDetailed;
              Arguments := Some (JObject [("location", int_lit 5)]) |}
           (int_lit 5)).
  - reflexivity.
  - reflexivity.
  - right. right. reflexivity.
  - reflexivity.
  - discriminate.
  - reflexivity.
Defined.

(** X8. The two messages of a tool call without a usable location, for each
    of the three tools. Missing arguments are "Invalid arguments", with the
    end-of-input error of the decoder as data; arguments that are a JSON
    value other than null or an object are "Invalid arguments", with the
    type error as data; arguments that are null, or an object none of whose
    members selects [location] or [days], are "location is required", with
    no data. All three carry code -32602. *)
Theorem arguments_without_location (req : JSONRPCRequest) (params : CallParams) :
  Method req = "tools/call" ->
  Unmarshal params_step (Params req) {| Name := ""; Arguments := None |} = Ok params ->
  known_tool (Name params) ->
  (Arguments params = None ->
     handleRequest req
     = Ret (Some (paramError (ID req) "Invalid arguments"
                    (ErrorText (SyntaxError "unexpected end of JSON input")))))
  /\ (forall v, Arguments params = Some v -> v <> JNull -> (forall ms, v <> JObject ms) ->
        handleRequest req
        = Ret (Some (paramError (ID req) "Invalid arguments"
                       (ErrorText (UnmarshalTypeError v "")))))
  /\ (Arguments params = Some JNull
      \/ (exists ms, Arguments params = Some (JObject ms)
            /\ Forall (fun kv => field_is "location" (fst kv) = false
                                 /\ field_is "days" (fst kv) = false) ms) ->
      handleRequest req
      = Ret (Some (paramError (ID req) "location is required" NoData))).
Proof.
  intros Hm Hp Hknown. rewrite (handleRequest_tools_call req Hm).
  split; [|split].
  - intros Hargs.
    destruct (known_tool_routine req params Hp Hknown)
      as [[_ ->] | [[_ ->] | [_ ->]]]; rewrite Hargs; reflexivity.
  - intros v Hargs Hnull Hobj.
    destruct (known_tool_routine req params Hp Hknown)
      as [[_ ->] | [[_ ->] | [_ ->]]]; rewrite Hargs;
      (destruct v as [| b | n | s | l | ms];
       [congruence | reflexivity | reflexivity | reflexivity | reflexivity
        | exfalso; exact (Hobj ms eq_refl)]).
  - intros [Hargs | (ms & Hargs & Hall)].
    + destruct (known_tool_routine req params Hp Hknown)
        as [[_ ->] | [[_ ->] | [_ ->]]]; rewrite Hargs; reflexivity.
    + assert (Forall (fun kv => field_is "location" (fst kv) = false) ms) as Hloc.
      { eapply List.Forall_impl; [|exact Hall]. intros kv [Hl _]. exact Hl. }
      destruct (known_tool_routine req params Hp Hknown)
        as [[_ ->] | [[_ ->] | [_ ->]]]; rewrite Hargs.
      * unfold callGetCurrent, Unmarshal.
        rewrite (location_fold_unmatched ms _ Hloc). reflexivity.
      * unfold callGetForecast, Unmarshal.
        rewrite (forecast_fold_unmatched ms _ Hall). reflexivity.
      * unfold callGetDetailed, Unmarshal.
        rewrite (location_fold_unmatched ms _ Hloc). reflexivity.
Qed.

Lemma arguments_without_location_witness :
  (Some (JObject []) = None ->
     handleRequest req_no_location
     = Ret (Some (paramError (ID req_no_location) "Invalid arguments"
                    (ErrorText (SyntaxError "unexpected end of JSON input")))))
  /\ (forall v, Some (JObject []) = Some v -> v <> JNull -> (forall ms, v <> JObject ms) ->
        handleRequest req_no_location
        = Ret (Some (paramError (ID req_no_location) "Invalid arguments"
                       (ErrorText (UnmarshalTypeError v "")))))
  /\ (Some (JObject []) = Some JNull
      \/ (exists ms, Some (JObject []) = Some (JObject ms)
            /\ Forall (fun kv => field_is "location" (fst kv) = false
                                 /\ field_is "days" (fst kv) = false) ms) ->
      handleRequest req_no_location
      = Ret (Some (paramError (ID req_no_location) "location is required" NoData))).
Proof.
  apply (arguments_without_location req_no_location
           {| Name := toolGetCurrent; Arguments := Some (JObject []) |}).
  - reflexivity.
  - reflexivity.
  - left. reflexivity.
Defined.

(** X9. The location reaches the service as it was sent: when the
    arguments of one of the three tools decode and give [location] a
    non-empty string, the operation of that tool is invoked with exactly
    that string, with no trimming or other change. *)
Theorem location_is_passed_verbatim (req : JSONRPCRequest) (params : CallParams)
    (loc s : string) :
  Method req = "tools/call" ->
  Unmarshal params_step (Params req) {| Name := ""; Arguments := None |} = Ok params ->
  decoded_location (Name params) (Arguments params) = Some loc ->
  argument "location" (Arguments params) = Some (JString s) ->
  s <> "" ->
  exists c k,
    handleRequest req = Invoke c k
    /\ call_tool c = Name params
    /\ call_location c = s.
Proof.
  intros Hm Hp Hdec Harg Hne.
  pose proof (decoded_location_is_argument _ _ _ _ Hdec Harg) as ->.
  destruct (handleToolsCall_invokes req params s Hp Hdec Hne) as (c & Htool & Hloc & Hc).
  exists c. eexists. rewrite (handleRequest_tools_call req Hm), Hc.
  split; [reflexivity|]. split; [exact Htool | exact Hloc].
Qed.

Lemma location_is_passed_verbatim_witness :
  exists c k,
    handleRequest req_forecast_tokyo = Invoke c k
    /\ call_tool c = toolGetForecast
    /\ call_location c = "Tokyo".
Proof.
  apply (location_is_passed_verbatim req_forecast_tokyo
           {| Name := toolGetForecast;
              Arguments := Some (JObject [("location", JString "Tokyo");
                                          ("days", int_lit 2)]) |}
           "Tokyo" "Tokyo").
  - reflexivity.
  - reflexivity.
  - reflexivity.
  - reflexivity.
  - discriminate.
Defined.

(** X10. Members of the arguments object that select no field of the
    routine's input are ignored: removing such a member does not change
    what the routine does. The inputs of get_current_weather and
    get_weather_detailed have the field [location] only, so these two
    ignore a [days] member; the input of get_forecast has [location] and
    [days]. *)
Theorem unknown_arguments_are_ignored (id : value) (ms1 ms2 : list (string * json))
    (k : string) (v : json) :
  field_is "location" k = false ->
  callGetCurrent id (Some (JObject (ms1 ++ (k, v) :: ms2)))
    = callGetCurrent id (Some (JObject (ms1 ++ ms2)))
  /\ callGetDetailed id (Some (JObject (ms1 ++ (k, v) :: ms2)))
    = callGetDetailed id (Some (JObject (ms1 ++ ms2)))
  /\ (field_is "days" k = false ->
      callGetForecast id (Some (JObject (ms1 ++ (k, v) :: ms2)))
      = callGetForecast id (Some (JObject (ms1 ++ ms2)))).
Proof.
  intros Hl. split; [|split].
  - unfold callGetCurrent, Unmarshal. rewrite !fold_left_app. simpl.
    rewrite (location_step_unmatched _ k v Hl). reflexivity.
  - unfold callGetDetailed, Unmarshal. rewrite !fold_left_app. simpl.
    rewrite (location_step_unmatched _ k v Hl). reflexivity.
  - intros Hd. unfold callGetForecast, Unmarshal. rewrite !fold_left_app. simpl.
    rewrite (forecast_step_unmatched _ k v Hl Hd). reflexivity.
Qed.

Lemma unknown_arguments_are_ignored_witness :
  callGetCurrent id1 (Some (JObject ([("location", JString "Paris")]
                                      ++ ("days", JString "soon") :: [])))
    = callGetCurrent id1 (Some (JObject ([("location", JString "Paris")] ++ [])))
  /\ callGetDetailed id1 (Some (JObject ([("location", JString "Paris")]
                                          ++ ("days", JString "soon") :: [])))
    = callGetDetailed id1 (Some (JObject ([("location", JString "Paris")] ++ [])))
  /\ (field_is "days" "days" = false ->
      callGetForecast id1 (Some (JObject ([("location", JString "Paris")]
                                           ++ ("days", JString "soon") :: [])))
      = callGetForecast id1 (Some (JObject ([("location", JString "Paris")] ++ [])))).
Proof.
  apply (unknown_arguments_are_ignored id1 [("location", JString "Paris")] []
           "days" (JString "soon")).
  reflexivity.
Defined.

(** ** The whole input *)

Section WholeInput.

Variable scan : string -> Outcome json string.
Context {W : Type} `{WeatherService W}.





End WholeInput.


(** The three sample lines and an empty one: two replies. *)
Example run_on_samples :
  run scan_samples [line_garbage; ""; line_initialized_id; line_list_no_id] (mock_ok, [])
  = (mock_ok,
     [ error_reply VNil (-32700) "Parse error" (ErrorText (SyntaxError "invalid character"));
       handleToolsList req_list_no_id ]).
Proof. reflexivity. Qed.



(** ** The request that the gateway sends *)

Section RequestURL.

Lemma nat_of_ascii_bound (c : ascii) : (nat_of_ascii c < 256)%nat.
Proof. destruct c as [[] [] [] [] [] [] [] []]; vm_compute; lia. Qed.

Lemma upperhex_is_unreserved (n : nat) :
  (n < 16)%nat -> HTTP.shouldEscape (HTTP.upperhex n) = false.
Proof.
  intros Hn. do 16 (destruct n as [|n]; [reflexivity|]). lia.
Qed.

Lemma upperhex_inj (a b : nat) :
  (a < 16)%nat -> (b < 16)%nat -> HTTP.upperhex a = HTTP.upperhex b -> a = b.
Proof.
  intros Ha Hb Heq.
  do 16 (destruct a as [|a];
         [do 16 (destruct b as [|b];
                 [first [reflexivity | vm_compute in Heq; discriminate Heq]|]); lia|]).
  lia.
Qed.

Lemma percent_is_escaped (c : ascii) : HTTP.shouldEscape c = false -> c <> "%"%char.
Proof. intros Hc ->. discriminate Hc. Qed.

Lemma hex_digits_determine_byte (c1 c2 : ascii) :
  HTTP.upperhex (nat_of_ascii c1 / 16) = HTTP.upperhex (nat_of_ascii c2 / 16) ->
  HTTP.upperhex (nat_of_ascii c1 mod 16) = HTTP.upperhex (nat_of_ascii c2 mod 16) ->
  c1 = c2.
Proof.
  intros Hhi Hlo.
  pose proof (nat_of_ascii_bound c1) as H1. pose proof (nat_of_ascii_bound c2) as H2.
  apply upperhex_inj in Hhi;
    [| apply Nat.Div0.div_lt_upper_bound; lia | apply Nat.Div0.div_lt_upper_bound; lia].
  apply upperhex_inj in Hlo; [| apply Nat.mod_upper_bound; lia | apply Nat.mod_upper_bound; lia].
  rewrite <- (ascii_nat_embedding c1), <- (ascii_nat_embedding c2).
  f_equal.
  rewrite (Nat.div_mod_eq (nat_of_ascii c1) 16), (Nat.div_mod_eq (nat_of_ascii c2) 16).
  congruence.
Qed.

Lemma PathEscape_cons (c : ascii) (s : string) :
  HTTP.PathEscape (String c s)
  = if HTTP.shouldEscape c then
      String "%" (String (HTTP.upperhex (nat_of_ascii c / 16))
                    (String (HTTP.upperhex (nat_of_ascii c mod 16)) (HTTP.PathEscape s)))
    else String c (HTTP.PathEscape s).
Proof. reflexivity. Qed.

Lemma PathEscape_bytes (s : string) :
  Forall (fun b => HTTP.shouldEscape b = false \/ b = "%"%char)
         (list_ascii_of_string (HTTP.PathEscape s)).
Proof.
  induction s as [|c s IH]; [constructor|].
  rewrite PathEscape_cons.
  destruct (HTTP.shouldEscape c) eqn:Hc; cbn [list_ascii_of_string].
  - pose proof (nat_of_ascii_bound c) as Hb.
    constructor; [right; reflexivity|].
    constructor.
    { left. apply upperhex_is_unreserved, Nat.Div0.div_lt_upper_bound. lia. }
    constructor; [|exact IH].
    left. apply upperhex_is_unreserved, Nat.mod_upper_bound. lia.
  - constructor; [left; exact Hc | exact IH].
Qed.

Lemma PathEscape_inj (s1 s2 : string) :
  HTTP.PathEscape s1 = HTTP.PathEscape s2 -> s1 = s2.
Proof.
  revert s2. induction s1 as [|c1 s1 IH]; intros [|c2 s2];
    rewrite ?PathEscape_cons.
  - reflexivity.
  - destruct (HTTP.shouldEscape c2); discriminate.
  - destruct (HTTP.shouldEscape c1); discriminate.
  - destruct (HTTP.shouldEscape c1) eqn:H1, (HTTP.shouldEscape c2) eqn:H2.
    + intros [= Hhi Hlo Hrest].
      rewrite (hex_digits_determine_byte c1 c2 Hhi Hlo), (IH s2 Hrest). reflexivity.
    + intros [= Hc _]. exfalso. exact (percent_is_escaped c2 H2 (eq_sym Hc)).
    + intros [= Hc _]. exfalso. exact (percent_is_escaped c1 H1 Hc).
    + intros [= -> Hrest]. rewrite (IH s2 Hrest). reflexivity.
Qed.

Lemma invoked_forecast_days req loc d :
  invokes (handleRequest req) (CallGetForecast loc d) -> 1 <= d <= 3.
Proof.
  intros Hinv.
  destruct (handleRequest_cases req)
    as [[_ Hret] | [[_ Hret] | [[_ Hret] | [[_ (code & message & data & _ & Hret)]
       | [_ (params & c & k & _ & Hk & _ & _ & _ & Hdays & Hreply)]]]]];
    try (rewrite Hret in Hinv; inversion Hinv).
  rewrite Hk in Hinv.
  apply (invokes_Invoke c k (fun r => Some (tool_reply (ID req) r)) _ Hreply) in Hinv.
  exact (Hdays loc d (eq_sym Hinv)).
Qed.

End RequestURL.

(** X13. A fetch consults the transport for one request only, the GET of
    the URL with the single header User-Agent: wttr-weather-mcp/1.0. Two
    clients whose transports answer that request alike give the same result,
    whatever they answer to other requests and whatever their base URLs. *)
Theorem fetch_sends_one_request (url_Parse : string -> option error)
    (c c' : Weather.WeatherClient) (u : string) :
  Weather.httpClient c (request_for u) = Weather.httpClient c' (request_for u) ->
  Weather.fetch url_Parse c u = Weather.fetch url_Parse c' u
  /\ HTTP.Method (request_for u) = "GET"
  /\ HTTP.URL (request_for u) = u
  /\ HTTP.Header (request_for u) = {[ "User-Agent" := ["wttr-weather-mcp/1.0"] ]}.
Proof.
  intros Hsame. split; [|repeat split].
  unfold Weather.fetch, Weather.NewRequest.
  destruct (url_Parse u); [reflexivity|].
  change (HTTP.Header_Set {| HTTP.Method := "GET"; HTTP.URL := u; HTTP.Header := ∅ |}
            "User-Agent" "wttr-weather-mcp/1.0") with (request_for u).
  rewrite Hsame. reflexivity.
Qed.

Lemma fetch_sends_one_request_witness :
  Weather.fetch url_accepted (Weather.NewWeatherClient (transport_answering 200 "ok"))
      london_url
  = Weather.fetch url_accepted
      {| Weather.httpClient := transport_answering 200 "ok";
         Weather.baseURL := "http://127.0.0.1:8080" |} london_url
  /\ HTTP.Method (request_for london_url) = "GET"
  /\ HTTP.URL (request_for london_url) = london_url
  /\ HTTP.Header (request_for london_url) = {[ "User-Agent" := ["wttr-weather-mcp/1.0"] ]}.
Proof.
  apply (fetch_sends_one_request url_accepted
           (Weather.NewWeatherClient (transport_answering 200 "ok"))
           {| Weather.httpClient := transport_answering 200 "ok";
              Weather.baseURL := "http://127.0.0.1:8080" |} london_url).
  reflexivity.
Defined.

(** X14. The URL of every operation is the base URL, a slash, the escaped
    location and a query. The escaped location holds only letters, digits,
    the marks -_.~$&+:=@ and percent signs, so it holds no space, slash,
    question mark or hash: the location can change neither the path
    structure nor the query. The query is the fixed format of the current
    conditions, the day count followed by lang=ru, or format=j1. *)
Theorem operation_url_shape (url_Parse : string -> option error)
    (c : Weather.WeatherClient) (op : Call) :
  exists segment query,
    @perform _ (WeatherClient_service url_Parse) op c
      = (Weather.fetch url_Parse c (Weather.baseURL c +:+ "/" +:+ segment +:+ query), c)
    /\ segment = HTTP.PathEscape (call_location op)
    /\ Forall (fun b => HTTP.shouldEscape b = false \/ b = "%"%char)
              (list_ascii_of_string segment)
    /\ (forall b, In b (list_ascii_of_string segment) ->
          b <> " "%char /\ b <> "/"%char /\ b <> "?"%char /\ b <> "#"%char)
    /\ match op with
       | CallGetCurrent _ => query = "?format=%l:+%c+%t+(%f)+%h+%w"
       | CallGetForecast _ days => query = forecast_query days
       | CallGetDetailed _ => query = "?format=j1"
       end.
Proof.
  exists (HTTP.PathEscape (call_location op)).
  assert (forall b, In b (list_ascii_of_string (HTTP.PathEscape (call_location op))) ->
            b <> " "%char /\ b <> "/"%char /\ b <> "?"%char /\ b <> "#"%char) as Hnone.
  { intros b Hb.
    pose proof (PathEscape_bytes (call_location op)) as Hall.
    rewrite List.Forall_forall in Hall.
    destruct (Hall b Hb) as [Hsafe | ->].
    - repeat split; intros ->; discriminate Hsafe.
    - repeat split; discriminate. }
  destruct op as [location | location days | location]; eexists;
    (split; [reflexivity|]); (split; [reflexivity|]);
    (split; [apply PathEscape_bytes|]); (split; [exact Hnone|]); reflexivity.
Qed.

(** X15. Escaping loses nothing: two locations with the same escaped form
    are the same location, so different locations are never sent to the
    same path. *)
Theorem escaped_location_determines_location (location1 location2 : string) :
  HTTP.PathEscape location1 = HTTP.PathEscape location2 -> location1 = location2.
Proof. apply PathEscape_inj. Qed.

Lemma escaped_location_determines_location_witness : "New York" = "New York".
Proof.
  apply (escaped_location_determines_location "New York" "New York"). reflexivity.
Defined.

(** X16. Through the dispatcher the upstream service is only ever asked for
    1, 2 or 3 days: whatever forecast operation [handleRequest] can invoke,
    the client fetches the base URL, the escaped location and one of the
    queries ?1&lang=ru, ?2&lang=ru, ?3&lang=ru. *)
Theorem forecast_query_is_one_of_three (url_Parse : string -> option error)
    (c : Weather.WeatherClient) (req : JSONRPCRequest) (loc : string) (d : Z) :
  invokes (handleRequest req) (CallGetForecast loc d) ->
  exists query,
    @perform _ (WeatherClient_service url_Parse) (CallGetForecast loc d) c
      = (Weather.fetch url_Parse c
           (Weather.baseURL c +:+ "/" +:+ HTTP.PathEscape loc +:+ query), c)
    /\ (query = "?1&lang=ru" \/ query = "?2&lang=ru" \/ query = "?3&lang=ru").
Proof.
  intros Hinv. apply invoked_forecast_days in Hinv.
  exists (forecast_query d). split; [reflexivity|].
  assert (d = 1 \/ d = 2 \/ d = 3) as [-> | [-> | ->]] by lia; auto.
Qed.

Lemma forecast_query_is_one_of_three_witness :
  exists query,
    @perform _ (WeatherClient_service url_accepted) (CallGetForecast "Tokyo" 2)
       (Weather.NewWeatherClient (transport_answering 200 "forecast data"))
      = (Weather.fetch url_accepted
           (Weather.NewWeatherClient (transport_answering 200 "forecast data"))
           (Weather.baseURL (Weather.NewWeatherClient (transport_answering 200 "forecast data"))
              +:+ "/" +:+ HTTP.PathEscape "Tokyo" +:+ query),
         Weather.NewWeatherClient (transport_answering 200 "forecast data"))
    /\ (query = "?1&lang=ru" \/ query = "?2&lang=ru" \/ query = "?3&lang=ru").
Proof.
  apply (forecast_query_is_one_of_three url_accepted
           (Weather.NewWeatherClient (transport_answering 200 "forecast data"))
           req_forecast_tokyo "Tokyo" 2).
  apply invokes_here.
Defined.

(** X17. The dispatcher over the production client. A validated tool call
    makes one fetch and leaves the client as it was; the reply never has an
    error object, whatever the network does. If the fetch returns a body
    the reply is the plain result with that body; if it fails the reply is
    the error-flagged result whose text is "Error: " and the text of the
    failure. In particular an upstream status other than 200 gives the text
    "Error: wttr.in returned status", the status, a colon and the body. *)
Theorem upstream_outcome_in_reply (url_Parse : string -> option error)
    (c : Weather.WeatherClient) (req : JSONRPCRequest) (params : CallParams)
    (loc : string) :
  Method req = "tools/call" ->
  Unmarshal params_step (Params req) {| Name := ""; Arguments := None |} = Ok params ->
  decoded_location (Name params) (Arguments params) = Some loc ->
  loc <> "" ->
  exists op u resp,
    call_tool op = Name params
    /\ call_location op = loc
    /\ @exec _ (WeatherClient_service url_Parse) _ (handleRequest req) c
       = (Some resp, c, [op])
    /\ RespError resp = None
    /\ (forall body, Weather.fetch url_Parse c u = (body, None) ->
          resp = successResponse (ID req) body)
    /\ (forall result e, Weather.fetch url_Parse c u = (result, Some e) ->
          resp = errorResponse (ID req) e)
    /\ (forall r body,
          url_Parse u = None ->
          Weather.httpClient c (request_for u) = Ok r ->
          HTTP.Body r = (body, None) ->
          HTTP.StatusCode r <> 200 ->
          resp = errorResponse (ID req)
                   ("wttr.in returned status " +:+ itoa (HTTP.StatusCode r)
                    +:+ ": " +:+ body)).
Proof.
  intros Hm Hp Hloc Hne.
  destruct (handleToolsCall_invokes req params loc Hp Hloc Hne)
    as (op & Htool & Hoploc & Hcall).
  destruct (operation_fetches url_Parse c op) as [u Hu].
  exists op, u, (tool_reply (ID req) (Weather.fetch url_Parse c u)).
  split; [exact Htool|]. split; [exact Hoploc|]. split.
  { rewrite (handleRequest_tools_call req Hm), Hcall. simpl.
    change (match op with
            | CallGetCurrent location => GetCurrent location c
            | CallGetForecast location days => GetForecast location days c
            | CallGetDetailed location => GetDetailed location c
            end) with (@perform _ (WeatherClient_service url_Parse) op c).
    rewrite Hu. destruct (Weather.fetch url_Parse c u) as [result [e|]]; reflexivity. }
  split. { destruct (Weather.fetch url_Parse c u) as [result [e|]]; reflexivity. }
  split. { intros body ->. reflexivity. }
  split. { intros result e ->. reflexivity. }
  intros r body Hurl Hdo Hbody Hstatus.
  assert (Weather.fetch url_Parse c u
          = ("", Some ("wttr.in returned status " +:+ itoa (HTTP.StatusCode r)
                       +:+ ": " +:+ body))) as ->.
  { unfold Weather.fetch, Weather.NewRequest. rewrite Hurl.
    change (HTTP.Header_Set {| HTTP.Method := "GET"; HTTP.URL := u; HTTP.Header := ∅ |}
              "User-Agent" "wttr-weather-mcp/1.0") with (request_for u).
    rewrite Hdo. unfold HTTP.ReadAll. rewrite Hbody.
    destruct (Z.eqb_spec (HTTP.StatusCode r) HTTP.StatusOK) as [Heq|_];
      [contradiction | reflexivity]. }
  reflexivity.
Qed.

Lemma upstream_outcome_in_reply_witness :
  exists op u resp,
    call_tool op = toolGetCurrent
    /\ call_location op = "London"
    /\ @exec _ (WeatherClient_service url_accepted) _ (handleRequest req_london)
         (Weather.NewWeatherClient (transport_answering 404 "Unknown location"))
       = (Some resp, Weather.NewWeatherClient (transport_answering 404 "Unknown location"),
          [op])
    /\ RespError resp = None
    /\ (forall body,
          Weather.fetch url_accepted
            (Weather.NewWeatherClient (transport_answering 404 "Unknown location")) u
          = (body, None) ->
          resp = successResponse (ID req_london) body)
    /\ (forall result e,
          Weather.fetch url_accepted
            (Weather.NewWeatherClient (transport_answering 404 "Unknown location")) u
          = (result, Some e) ->
          resp = errorResponse (ID req_london) e)
    /\ (forall r body,
          url_accepted u = None ->
          Weather.httpClient
            (Weather.NewWeatherClient (transport_answering 404 "Unknown location"))
            (request_for u) = Ok r ->
          HTTP.Body r = (body, None) ->
          HTTP.StatusCode r <> 200 ->
          resp = errorResponse (ID req_london)
                   ("wttr.in returned status " +:+ itoa (HTTP.StatusCode r)
                    +:+ ": " +:+ body)).
Proof.
  apply (upstream_outcome_in_reply url_accepted
           (Weather.NewWeatherClient (transport_answering 404 "Unknown location"))
           req_london
           {| Name := toolGetCurrent;
              Arguments := Some (JObject [("location", JString "London")]) |}
           "London").
  - reflexivity.
  - reflexivity.
  - reflexivity.
  - discriminate.
Defined.

(** The 404 of the client tests, seen through the dispatcher. *)
Example upstream_404_through_the_dispatcher :
  @exec _ (WeatherClient_service url_accepted) _ (handleRequest req_london)
    (Weather.NewWeatherClient (transport_answering 404 "Unknown location"))
  = (Some (errorResponse id1 "wttr.in returned status 404: Unknown location"),
     Weather.NewWeatherClient (transport_answering 404 "Unknown location"),
     [CallGetCurrent "London"]).
Proof. reflexivity. Qed.
